(** * ComplianceEngine: the rule evaluation engine of the compliance hub

    A shallow embedding of [server/src/utils/ComplianceEngine.ts] together
    with the part of the [EnforcementRule] schema the engine reads, and the
    properties of the engine that the specification states.

    JavaScript numbers are IEEE 754 binary64 values, and so are Rocq's
    primitive floats: the fees, amounts and thresholds of the engine are
    [float]s, and the engine's arithmetic and comparisons on them are the
    primitive ones.  Only the hours of the solicitation window, which are
    integers or [NaN], are kept as integers. *)

From Stdlib Require Import Bool List ZArith Lia.
From Stdlib Require Import Ascii String.
From Stdlib Require Import Floats.
Import ListNotations.

(* A decimal literal denotes the nearest binary64 value, as it does in
   JavaScript. *)
Set Warnings "-inexact-float".

Local Open Scope string_scope.
Local Open Scope list_scope.

(** ** JavaScript numbers *)

Module Js.

(** [!x] on a number: [0], [-0] and [NaN] are falsy. *)
Definition falsyNumber (x : float) : bool :=
  PrimFloat.is_zero x || PrimFloat.is_nan x.

(** [x > y]. *)
Definition gt (x y : float) : bool := PrimFloat.ltb y x.

(** [Math.min(a, b)]: [NaN] if either argument is, and [-0] below [+0]. *)
Definition min (a b : float) : float :=
  if PrimFloat.is_nan a || PrimFloat.is_nan b then PrimFloat.nan
  else if PrimFloat.ltb a b then a
  else if PrimFloat.ltb b a then b
  else if PrimFloat.get_sign a then a else b.

(** [Math.max(a, b)]: [NaN] if either argument is, and [+0] above [-0]. *)
Definition max (a b : float) : float :=
  if PrimFloat.is_nan a || PrimFloat.is_nan b then PrimFloat.nan
  else if PrimFloat.ltb a b then b
  else if PrimFloat.ltb b a then a
  else if PrimFloat.get_sign a then b else a.

(** [Number.isFinite(x)]. *)
Definition isFinite (x : float) : bool := PrimFloat.is_finite x.

(** An optional boolean used as a condition: only [true] is truthy. *)
Definition truthyBool (x : option bool) : bool :=
  match x with
  | Some true => true
  | _ => false
  end.

(** *** Strings

    Strings are byte strings here; the case conversions act on the ASCII
    letters and leave every other byte as it is. *)

Definition upperAscii (c : ascii) : ascii :=
  let n := nat_of_ascii c in
  if (97 <=? n)%nat && (n <=? 122)%nat then ascii_of_nat (n - 32) else c.

Definition lowerAscii (c : ascii) : ascii :=
  let n := nat_of_ascii c in
  if (65 <=? n)%nat && (n <=? 90)%nat then ascii_of_nat (n + 32) else c.

Fixpoint mapString (f : ascii -> ascii) (s : string) : string :=
  match s with
  | EmptyString => EmptyString
  | String c rest => String (f c) (mapString f rest)
  end.

Definition toUpperCase : string -> string := mapString upperAscii.
Definition toLowerCase : string -> string := mapString lowerAscii.

(** [s.startsWith(p)]. *)
Fixpoint startsWith (p s : string) : bool :=
  match p, s with
  | EmptyString, _ => true
  | String a p', String b s' => Ascii.eqb a b && startsWith p' s'
  | String _ _, EmptyString => false
  end.

(** [s.includes(sub)]. *)
Fixpoint includes (s sub : string) : bool :=
  startsWith sub s ||
  match s with
  | EmptyString => false
  | String _ rest => includes rest sub
  end.

(** The rest of [s] after its first [n] characters. *)
Fixpoint drop (n : nat) (s : string) : string :=
  match n, s with
  | O, _ => s
  | S n', String _ rest => drop n' rest
  | S _, EmptyString => EmptyString
  end.

(** [s.replace(pat, by)] with a string pattern: the first occurrence only. *)
Fixpoint replace (s pat by_ : string) : string :=
  if startsWith pat s then by_ ++ drop (String.length pat) s
  else match s with
       | EmptyString => EmptyString
       | String c rest => String c (replace rest pat by_)
       end.

(** [s.split(sep)[0]] for a one-character separator. *)
Fixpoint splitHead (sep : ascii) (s : string) : string :=
  match s with
  | EmptyString => EmptyString
  | String c rest =>
      if Ascii.eqb c sep then EmptyString else String c (splitHead sep rest)
  end.

(** [xs.join(sep)]. *)
Definition join (sep : string) (xs : list string) : string :=
  String.concat sep xs.

(** [xs.includes(x)] on an array of strings. *)
Definition arrayIncludes (xs : list string) (x : string) : bool :=
  existsb (String.eqb x) xs.

(** *** [parseInt(s)] with no radix

    The value is an integer or [NaN]; [None] stands for [NaN].  The engine
    only compares the result with an hour of the day, and rounding a large
    integer to a float does not change how it compares with a small one. *)

Definition isWhite (c : ascii) : bool :=
  let n := nat_of_ascii c in
  ((9 <=? n)%nat && (n <=? 13)%nat) || (n =? 32)%nat.

Fixpoint trimStart (s : string) : string :=
  match s with
  | String c rest => if isWhite c then trimStart rest else s
  | EmptyString => EmptyString
  end.

Definition digitValue (c : ascii) : option Z :=
  let n := nat_of_ascii c in
  if (48 <=? n)%nat && (n <=? 57)%nat then Some (Z.of_nat (n - 48))
  else if (97 <=? n)%nat && (n <=? 122)%nat then Some (Z.of_nat (n - 87))
  else if (65 <=? n)%nat && (n <=? 90)%nat then Some (Z.of_nat (n - 55))
  else None.

(** The longest prefix of digits of radix [r], read from [acc]. *)
Fixpoint digits (r : Z) (s : string) (acc : option Z) : option Z :=
  match s with
  | EmptyString => acc
  | String c rest =>
      match digitValue c with
      | Some d =>
          if (d <? r)%Z
          then digits r rest
                 (Some (match acc with Some a => a * r + d | None => d end)%Z)
          else acc
      | None => acc
      end
  end.

Definition parseInt (input : string) : option Z :=
  let s := trimStart input in
  let '(negative, s) :=
    match s with
    | String "-" rest => (true, rest)
    | String "+" rest => (false, rest)
    | _ => (false, s)
    end in
  let '(radix, s) :=
    if startsWith "0x" s || startsWith "0X" s then (16%Z, drop 2 s)
    else (10%Z, s) in
  match digits radix s None with
  | Some v => Some (if negative then (- v)%Z else v)
  | None => None
  end.

(** [a < b] and [a >= b] on such values: false as soon as one is [NaN]. *)
Definition intLt (a b : option Z) : bool :=
  match a, b with
  | Some x, Some y => (x <? y)%Z
  | _, _ => false
  end.

Definition intGe (a b : option Z) : bool :=
  match a, b with
  | Some x, Some y => (y <=? x)%Z
  | _, _ => false
  end.

End Js.

(** ** Data model *)

(** [IEnforcementRule.severity]: the five values of the schema's enum. *)
Inductive Severity : Type :=
| BLOCK_ACTION
| WARN_BLOCK
| WARN_CONTINUE
| INFO_ONLY
| WARNING_ONLY.

Definition Severity_eqb (a b : Severity) : bool :=
  match a, b with
  | BLOCK_ACTION, BLOCK_ACTION
  | WARN_BLOCK, WARN_BLOCK
  | WARN_CONTINUE, WARN_CONTINUE
  | INFO_ONLY, INFO_ONLY
  | WARNING_ONLY, WARNING_ONLY => true
  | _, _ => false
  end.

(** [thresholdValue] is [Schema.Types.Mixed]; these are the shapes the
    handlers cast it to. *)
Record Caps : Type := mkCaps { standard : float; emergency : float }.

Record Scale : Type := mkScale {
  tier1_limit : float;
  tier1_percent : float;
  tier2_percent : float
}.

Record Window : Type := mkWindow { start : string; end_ : string }.

Record Restriction : Type := mkRestriction {
  restrictionHours : float;
  triggerEvent : string
}.

Inductive Threshold : Type :=
| TNumber (n : float)
| TStrings (xs : list string)
| TText (s : string)
| TCaps (c : Caps)
| TScale (s : Scale)
| TWindow (w : Window)
| TRestriction (r : Restriction).

Record LegalBasis : Type := mkLegalBasis {
  statute : option string;
  consequences : option (list string)
}.

(** A rule record as the engine reads it ([_id] already as a string). *)
Record Rule : Type := mkRule {
  _id : string;
  stateCode : string;
  category : string;
  description : string;
  isActive : bool;
  logicType : string;
  thresholdValue : Threshold;
  severity : Severity;
  errorMessage : string;
  legalBasis : option LegalBasis
}.

Inductive ClaimType : Type := RESIDENTIAL | COMMERCIAL | PERSONAL_LINES.
Inductive FeeType : Type := PERCENTAGE | HOURLY | FLAT_FEE | CONTINGENCY.
Inductive ActionType : Type := CONTRACT | SOLICITATION | NEGOTIATION | REPRESENTATION.

Definition ClaimType_name (c : ClaimType) : string :=
  match c with
  | RESIDENTIAL => "RESIDENTIAL"
  | COMMERCIAL => "COMMERCIAL"
  | PERSONAL_LINES => "PERSONAL_LINES"
  end.

Definition FeeType_name (f : FeeType) : string :=
  match f with
  | PERCENTAGE => "PERCENTAGE"
  | HOURLY => "HOURLY"
  | FLAT_FEE => "FLAT_FEE"
  | CONTINGENCY => "CONTINGENCY"
  end.

Definition ActionType_name (a : ActionType) : string :=
  match a with
  | CONTRACT => "CONTRACT"
  | SOLICITATION => "SOLICITATION"
  | NEGOTIATION => "NEGOTIATION"
  | REPRESENTATION => "REPRESENTATION"
  end.

(** A [Date], as far as the engine looks at it: [getHours()], [None] being
    the [NaN] of an invalid date. *)
Record Date : Type := mkDate { getHours : option Z }.

(** [ContractValidationInput]; the input's [stateCode] is [inStateCode]. *)
Record ContractValidationInput : Type := mkInput {
  inStateCode : string;
  claimType : option ClaimType;
  feeType : option FeeType;
  feePercentage : option float;
  feeAmount : option float;
  claimAmount : option float;
  isEmergency : option bool;
  isDeclaredDisaster : option bool;
  contractLanguage : option string;
  actionType : option ActionType;
  solicitationTime : option Date
}.

(** The input in which every optional field is absent. *)
Definition emptyInput (code : string) : ContractValidationInput :=
  mkInput code None None None None None None None None None None.

(** A template literal, piece by piece: the text of a number is kept as the
    number and the way it is printed. *)
Inductive Piece : Type :=
| Lit (s : string)
| Num (x : float)
| Fixed (x : float) (fractionDigits : nat)
| Mixed (t : Threshold).

Definition Text : Type := list Piece.

(** What a handler returns. *)
Record Evaluation : Type := mkEvaluation {
  violated : bool;
  recommendedAction : option Text
}.

Record ComplianceViolation : Type := mkViolation {
  v_ruleId : string;
  v_stateCode : string;
  v_category : string;
  v_severity : Severity;
  v_errorMessage : string;
  v_legalBasis : option string;
  v_consequences : option (list string);
  v_recommendedAction : option Text
}.

Record ComplianceWarning : Type := mkWarning {
  w_ruleId : string;
  w_stateCode : string;
  w_category : string;
  w_message : string;
  w_recommendedAction : option Text
}.

Record ComplianceValidationResult : Type := mkResult {
  isValid : bool;
  violations : list ComplianceViolation;
  warnings : list ComplianceWarning;
  blockedActions : list string
}.

Record MaximumFee : Type := mkMaximumFee {
  maxPercentage : float;
  maxAmount : float;
  notes : option Text
}.

Record Allowed : Type := mkAllowed {
  allowed : bool;
  reason : option string
}.

(** ** The engine *)

(** A handler casts [rule.thresholdValue] to the shape it expects and the
    cast is not checked.  The embedding follows a handler on the shape it
    casts to; where a handler reads a payload of any other shape the result
    is [None]: what JavaScript does there (a coercion, or a [TypeError] that
    rejects the whole validation) is not part of the model.  A payload that
    is not read is not looked at. *)

Definition ret {A : Type} (a : A) : option A := Some a.

Definition bind {A B : Type} (m : option A) (k : A -> option B) : option B :=
  match m with
  | Some a => k a
  | None => None
  end.

Notation "x <- m ;; k" := (bind m (fun x => k))
  (at level 61, m at next level, right associativity).

Definition asStrings (t : Threshold) : option (list string) :=
  match t with TStrings xs => Some xs | _ => None end.

Definition asNumber (t : Threshold) : option float :=
  match t with TNumber n => Some n | _ => None end.

Definition asCaps (t : Threshold) : option Caps :=
  match t with TCaps c => Some c | _ => None end.

Definition asScale (t : Threshold) : option Scale :=
  match t with TScale s => Some s | _ => None end.

Definition asWindow (t : Threshold) : option Window :=
  match t with TWindow w => Some w | _ => None end.

Definition asRestriction (t : Threshold) : option Restriction :=
  match t with TRestriction r => Some r | _ => None end.

Definition notViolated : Evaluation := mkEvaluation false None.

(** [actionType === keyword] and the like: an absent field equals no keyword. *)
Definition isAction (a : option ActionType) (keyword : string) : bool :=
  match a with
  | Some x => String.eqb (ActionType_name x) keyword
  | None => false
  end.

Definition isClaim (c : option ClaimType) (name : string) : bool :=
  match c with
  | Some x => String.eqb (ClaimType_name x) name
  | None => false
  end.

Definition isFee (f : option FeeType) (name : string) : bool :=
  match f with
  | Some x => String.eqb (FeeType_name x) name
  | None => false
  end.

(** The table of [getRecommendedAction] (own keys only). *)
Definition recommendations : list (string * list (string * string)) :=
  [ ("AL", [ ("LICENSE_RESTRICTION",
              "Refer client to licensed Alabama attorney. Public adjusting is illegal (UPL).") ]);
    ("AR", [ ("LICENSE_RESTRICTION",
              "Refer client to licensed Arkansas attorney. Public adjusting is illegal.") ]);
    ("KS", [ ("LICENSE_RESTRICTION",
              "Kansas only permits Commercial PA. For residential claims, refer to attorney.") ]);
    ("LA", [ ("FEE_STRUCTURE",
              "Convert to hourly or flat fee billing. Percentage fees are illegal in Louisiana.");
             ("UPL_PREVENTION",
              "Do not provide coverage opinions. Stick to scope and pricing only.") ]) ].

Fixpoint lookup {A : Type} (key : string) (table : list (string * A)) : option A :=
  match table with
  | [] => None
  | (k, v) :: rest => if String.eqb k key then Some v else lookup key rest
  end.

Definition getRecommendedAction (stateCode category : string) : string :=
  match bind (lookup stateCode recommendations) (lookup category) with
  | Some text => if String.eqb text "" then "Contact state Department of Insurance for guidance." else text
  | None => "Contact state Department of Insurance for guidance."
  end.

(** The callback of [keywords.some] in [evaluateForbiddenKeyword]. *)
Definition keywordMatches (input : ContractValidationInput) (keyword : string) : bool :=
  if Js.arrayIncludes ["CONTRACT"; "SOLICITATION"; "NEGOTIATION"; "REPRESENTATION"] keyword
  then isAction (actionType input) keyword
  else if Js.arrayIncludes ["RESIDENTIAL"; "HOMEOWNER"; "PERSONAL_LINES"] keyword
  then isClaim (claimType input) "RESIDENTIAL" || isClaim (claimType input) "PERSONAL_LINES"
  else if Js.arrayIncludes ["PERCENTAGE"; "CONTINGENCY"] keyword
  then isFee (feeType input) "PERCENTAGE" || isFee (feeType input) "CONTINGENCY"
  else false.

Definition evaluateForbiddenKeyword (rule : Rule) (input : ContractValidationInput)
  : option Evaluation :=
  keywords <- asStrings (thresholdValue rule) ;;
  let hasViolation := existsb (keywordMatches input) keywords in
  ret (mkEvaluation hasViolation
         (Some [Lit (getRecommendedAction (stateCode rule) (category rule))])).

Definition evaluateForbiddenAction (rule : Rule) (input : ContractValidationInput)
  : option Evaluation :=
  ret (mkEvaluation true
         (Some [Lit "Refer client to licensed attorney in "; Lit (stateCode rule);
                Lit ". Public adjusting is illegal in this state."])).

Definition evaluateForbiddenFeeType (rule : Rule) (input : ContractValidationInput)
  : option Evaluation :=
  forbiddenTypes <- asStrings (thresholdValue rule) ;;
  let violated :=
    Js.arrayIncludes forbiddenTypes
      (match feeType input with Some f => FeeType_name f | None => "" end) in
  ret (mkEvaluation violated
         (if violated then Some [Lit "Use HOURLY or FLAT_FEE billing structure only."]
          else None)).

Definition evaluateMaxPercentage (rule : Rule) (input : ContractValidationInput)
  : option Evaluation :=
  match feePercentage input with
  | None => ret notViolated
  | Some feePercentage =>
      if Js.falsyNumber feePercentage then ret notViolated
      else
        maxPercent <- asNumber (thresholdValue rule) ;;
        let violated := Js.gt feePercentage maxPercent in
        ret (mkEvaluation violated
               (if violated
                then Some [Lit "Reduce fee to "; Fixed (maxPercent * 100)%float 1;
                           Lit "% or less to comply with "; Lit (stateCode rule);
                           Lit " law."]
                else None))
  end.

Definition evaluateDynamicCap (rule : Rule) (input : ContractValidationInput)
  : option Evaluation :=
  match feePercentage input with
  | None => ret notViolated
  | Some feePercentage =>
      if Js.falsyNumber feePercentage then ret notViolated
      else
        caps <- asCaps (thresholdValue rule) ;;
        let applicableCap :=
          if Js.truthyBool (isEmergency input) || Js.truthyBool (isDeclaredDisaster input)
          then emergency caps else standard caps in
        let violated := Js.gt feePercentage applicableCap in
        ret (mkEvaluation violated
               (if violated
                then Some [Lit "Reduce fee to "; Fixed (applicableCap * 100)%float 1;
                           Lit "% (";
                           Lit (if Js.truthyBool (isEmergency input)
                                then "emergency" else "standard");
                           Lit " cap for "; Lit (stateCode rule); Lit ")."]
                else None))
  end.

(** The tiered maximum of a sliding scale, shared by [evaluateSlidingScale]
    and [getMaximumFee], which both write it out. *)
Definition tier1Amount (scale : Scale) (claimAmount : float) : float :=
  (Js.min claimAmount (tier1_limit scale) * tier1_percent scale)%float.

Definition tier2Amount (scale : Scale) (claimAmount : float) : float :=
  (Js.max 0 (claimAmount - tier1_limit scale) * tier2_percent scale)%float.

Definition maxAllowedFee (scale : Scale) (claimAmount : float) : float :=
  (tier1Amount scale claimAmount + tier2Amount scale claimAmount)%float.

Definition evaluateSlidingScale (rule : Rule) (input : ContractValidationInput)
  : option Evaluation :=
  match feeAmount input, claimAmount input with
  | Some feeAmount, Some claimAmount =>
      if Js.falsyNumber feeAmount || Js.falsyNumber claimAmount then ret notViolated
      else
        scale <- asScale (thresholdValue rule) ;;
        let violated := Js.gt feeAmount (maxAllowedFee scale claimAmount) in
        ret (mkEvaluation violated
               (if violated
                then Some [Lit "Maximum fee allowed: $";
                           Fixed (maxAllowedFee scale claimAmount) 2; Lit " (";
                           Num (tier1_percent scale * 100)%float; Lit "% on first $";
                           Num (tier1_limit scale); Lit ", ";
                           Num (tier2_percent scale * 100)%float; Lit "% on excess)."]
                else None))
  | _, _ => ret notViolated
  end.

Definition evaluateTimeWindow (rule : Rule) (input : ContractValidationInput)
  : option Evaluation :=
  match actionType input, solicitationTime input with
  | Some SOLICITATION, Some solicitationTime =>
      window <- asWindow (thresholdValue rule) ;;
      let hour := getHours solicitationTime in
      let startHour := Js.parseInt (Js.splitHead ":" (start window)) in
      let endHour := Js.parseInt (Js.splitHead ":" (end_ window)) in
      let violated := Js.intLt hour startHour || Js.intGe hour endHour in
      ret (mkEvaluation violated
             (if violated
              then Some [Lit "Solicitation is only permitted between ";
                         Lit (start window); Lit " and "; Lit (end_ window);
                         Lit " in "; Lit (stateCode rule); Lit "."]
              else None))
  | _, _ => ret notViolated
  end.

Definition evaluateTimeBasedRestriction (rule : Rule) (input : ContractValidationInput)
  : option Evaluation :=
  if negb (Js.truthyBool (isDeclaredDisaster input))
     || negb (isAction (actionType input) "SOLICITATION")
  then ret notViolated
  else
    restriction <- asRestriction (thresholdValue rule) ;;
    ret (mkEvaluation true
           (Some [Lit "Wait "; Num (restrictionHours restriction);
                  Lit " hours after disaster declaration before soliciting in ";
                  Lit (stateCode rule); Lit "."])).

Definition evaluateLanguageRequirement (rule : Rule) (input : ContractValidationInput)
  : option Evaluation :=
  requiredLanguages <- asStrings (thresholdValue rule) ;;
  match contractLanguage input with
  | Some contractLanguage =>
      if String.eqb contractLanguage ""
      then ret (mkEvaluation true
                  (Some [Lit "Contract must be provided in ";
                         Lit (Js.join " and " requiredLanguages);
                         Lit " for "; Lit (stateCode rule); Lit "."]))
      else
        let violated :=
          negb (existsb
                  (fun lang =>
                     Js.includes (Js.toLowerCase contractLanguage)
                       (Js.replace (Js.toLowerCase lang) "_REQUIRED" ""))
                  requiredLanguages) in
        ret (mkEvaluation violated
               (if violated
                then Some [Lit "Provide contract in ";
                           Lit (Js.join " and " requiredLanguages);
                           Lit " for "; Lit (stateCode rule); Lit "."]
                else None))
  | None =>
      ret (mkEvaluation true
             (Some [Lit "Contract must be provided in ";
                    Lit (Js.join " and " requiredLanguages);
                    Lit " for "; Lit (stateCode rule); Lit "."]))
  end.

Definition evaluateRequiredDisclosure (rule : Rule) (input : ContractValidationInput)
  : option Evaluation :=
  ret (mkEvaluation false
         (Some [Lit "Ensure contract includes: "; Mixed (thresholdValue rule)])).

Definition evaluateDynamicRescission (rule : Rule) (input : ContractValidationInput)
  : option Evaluation :=
  periods <- asCaps (thresholdValue rule) ;;
  let applicablePeriod :=
    if Js.truthyBool (isDeclaredDisaster input)
    then emergency periods else standard periods in
  ret (mkEvaluation false
         (Some [Lit "Include "; Num applicablePeriod;
                Lit "-day cancellation period in contract for ";
                Lit (stateCode rule); Lit "."])).

(** The logic types with a [case] in [evaluateRule]. *)
Definition recognized : list string :=
  [ "FORBIDDEN_KEYWORD"; "FORBIDDEN_ACTION"; "FORBIDDEN_FEE_TYPE";
    "MAX_PERCENTAGE"; "DYNAMIC_CAP"; "SLIDING_SCALE"; "TIME_WINDOW";
    "TIME_BASED_RESTRICTION"; "LANGUAGE_REQUIREMENT"; "REQUIRED_DISCLOSURE";
    "DYNAMIC_RESCISSION" ].

Definition evaluateRule (rule : Rule) (input : ContractValidationInput)
  : option Evaluation :=
  let lt := logicType rule in
  if String.eqb lt "FORBIDDEN_KEYWORD" then evaluateForbiddenKeyword rule input
  else if String.eqb lt "FORBIDDEN_ACTION" then evaluateForbiddenAction rule input
  else if String.eqb lt "FORBIDDEN_FEE_TYPE" then evaluateForbiddenFeeType rule input
  else if String.eqb lt "MAX_PERCENTAGE" then evaluateMaxPercentage rule input
  else if String.eqb lt "DYNAMIC_CAP" then evaluateDynamicCap rule input
  else if String.eqb lt "SLIDING_SCALE" then evaluateSlidingScale rule input
  else if String.eqb lt "TIME_WINDOW" then evaluateTimeWindow rule input
  else if String.eqb lt "TIME_BASED_RESTRICTION" then evaluateTimeBasedRestriction rule input
  else if String.eqb lt "LANGUAGE_REQUIREMENT" then evaluateLanguageRequirement rule input
  else if String.eqb lt "REQUIRED_DISCLOSURE" then evaluateRequiredDisclosure rule input
  else if String.eqb lt "DYNAMIC_RESCISSION" then evaluateDynamicRescission rule input
  else ret notViolated.

(** ** The rule store

    The store is a collaborator of the engine; a query sees it as the list
    of its records, in the order the store iterates them. *)

Definition Catalog : Type := list Rule.

(** [ComplianceRule.find({ $or: [{stateCode: code}, {stateCode: "DEFAULT_GREEN"}],
    isActive: true })]. *)
Definition findRules (catalog : Catalog) (code : string) : list Rule :=
  filter (fun rule =>
            (String.eqb (stateCode rule) code
             || String.eqb (stateCode rule) "DEFAULT_GREEN")
            && isActive rule)
         catalog.

(** [ComplianceRule.findOne({ stateCode: code, category: 'FEE_CAP', isActive: true })]. *)
Definition findFeeRule (catalog : Catalog) (code : string) : option Rule :=
  find (fun rule =>
          String.eqb (stateCode rule) code
          && String.eqb (category rule) "FEE_CAP"
          && isActive rule)
       catalog.

(** [ComplianceRule.findOne({ stateCode: code, category: 'LICENSE_RESTRICTION',
    severity: 'BLOCK_ACTION', isActive: true })]. *)
Definition findBlockingRule (catalog : Catalog) (code : string) : option Rule :=
  find (fun rule =>
          String.eqb (stateCode rule) code
          && String.eqb (category rule) "LICENSE_RESTRICTION"
          && Severity_eqb (severity rule) BLOCK_ACTION
          && isActive rule)
       catalog.

(** ** The orchestrator *)

(** The three arrays [validateContract] pushes to. *)
Record Lists : Type := mkLists {
  l_violations : list ComplianceViolation;
  l_warnings : list ComplianceWarning;
  l_blockedActions : list string
}.

Definition noLists : Lists := mkLists [] [] [].

Definition toViolation (rule : Rule) (result : Evaluation) : ComplianceViolation :=
  mkViolation (_id rule) (stateCode rule) (category rule) (severity rule)
    (errorMessage rule)
    (bind (legalBasis rule) statute)
    (bind (legalBasis rule) consequences)
    (recommendedAction result).

Definition toWarning (rule : Rule) (result : Evaluation) : ComplianceWarning :=
  mkWarning (_id rule) (stateCode rule) (category rule) (errorMessage rule)
    (recommendedAction result).

(** What the body of the loop does with a rule and its evaluation. *)
Definition record (rule : Rule) (result : Evaluation) (acc : Lists) : Lists :=
  if violated result then
    if Severity_eqb (severity rule) BLOCK_ACTION
       || Severity_eqb (severity rule) WARN_BLOCK
    then
      mkLists (l_violations acc ++ [toViolation rule result])
              (l_warnings acc)
              (if Severity_eqb (severity rule) BLOCK_ACTION
               then l_blockedActions acc ++ [category rule]
               else l_blockedActions acc)
    else if Severity_eqb (severity rule) WARN_CONTINUE
            || Severity_eqb (severity rule) INFO_ONLY
    then
      mkLists (l_violations acc)
              (l_warnings acc ++ [toWarning rule result])
              (l_blockedActions acc)
    else acc
  else acc.

(** The loop [for (const rule of rules)]. *)
Fixpoint processRules (input : ContractValidationInput) (rules : list Rule)
  (acc : Lists) : option Lists :=
  match rules with
  | [] => ret acc
  | rule :: rest =>
      result <- evaluateRule rule input ;;
      processRules input rest (record rule result acc)
  end.

Definition validateContract (catalog : Catalog) (input : ContractValidationInput)
  : option ComplianceValidationResult :=
  let rules := findRules catalog (Js.toUpperCase (inStateCode input)) in
  acc <- processRules input rules noLists ;;
  ret (mkResult (Nat.eqb (List.length (l_violations acc)) 0)
         (l_violations acc) (l_warnings acc) (l_blockedActions acc)).

(** ** The two queries *)

Definition isPublicAdjustingAllowed (catalog : Catalog) (code : string) : Allowed :=
  match findBlockingRule catalog (Js.toUpperCase code) with
  | Some blockingRule => mkAllowed false (Some (errorMessage blockingRule))
  | None => mkAllowed true None
  end.

(** [isEmergency] defaults to [false]. *)
Definition getMaximumFee (catalog : Catalog) (code : string) (claimAmount : float)
  (isEmergency : option bool) : option MaximumFee :=
  let isEmergency := match isEmergency with Some b => b | None => false end in
  match findFeeRule catalog (Js.toUpperCase code) with
  | None =>
      ret (mkMaximumFee 0.33 (claimAmount * 0.33)%float
             (Some [Lit "Standard reasonableness cap (no statutory limit)"]))
  | Some feeRule =>
      let capped (maxPercentage : float) :=
        mkMaximumFee maxPercentage (claimAmount * maxPercentage)%float
          (Some [Lit (description feeRule)]) in
      if String.eqb (logicType feeRule) "MAX_PERCENTAGE" then
        maxPercentage <- asNumber (thresholdValue feeRule) ;;
        ret (capped maxPercentage)
      else if String.eqb (logicType feeRule) "DYNAMIC_CAP" then
        caps <- asCaps (thresholdValue feeRule) ;;
        ret (capped (if isEmergency then emergency caps else standard caps))
      else if String.eqb (logicType feeRule) "SLIDING_SCALE" then
        scale <- asScale (thresholdValue feeRule) ;;
        let tier1 := (Js.min claimAmount (tier1_limit scale) * tier1_percent scale)%float in
        let tier2 :=
          (Js.max 0 (claimAmount - tier1_limit scale) * tier2_percent scale)%float in
        ret (mkMaximumFee ((tier1 + tier2) / claimAmount)%float (tier1 + tier2)%float
               (Some [Lit "Sliding scale: "; Num (tier1_percent scale * 100)%float;
                      Lit "% up to $"; Num (tier1_limit scale); Lit ", ";
                      Num (tier2_percent scale * 100)%float; Lit "% above"]))
      else ret (capped 0.33%float)
  end.

(** ** Vocabulary of the statements *)

(** The kind of a binary64 value, on its specification. *)
Definition sfIsNaN (x : spec_float) : bool :=
  match x with S754_nan => true | _ => false end.

Definition sfIsZero (x : spec_float) : bool :=
  match x with S754_zero _ => true | _ => false end.

Definition sfIsInfinity (x : spec_float) : bool :=
  match x with S754_infinity _ => true | _ => false end.

(** An active rule with nothing but what the engine's logic looks at. *)
Definition ruleOf (code category logic : string) (payload : Threshold)
  (sev : Severity) : Rule :=
  mkRule "r1" code category "" true logic payload sev "" None.

(** A cap below zero, and an input whose fee percentage is [0]. *)
Definition negativeCapRule : Rule :=
  ruleOf "TN" "FEE_CAP" "MAX_PERCENTAGE" (TNumber (-1)) BLOCK_ACTION.

Definition zeroFeeInput : ContractValidationInput :=
  mkInput "TN" None None (Some 0%float) None None None None None None None.

(** Tennessee's 10% cap, and a 12% fee. *)
Definition tennesseeRule : Rule :=
  ruleOf "TN" "FEE_CAP" "MAX_PERCENTAGE" (TNumber 0.10) BLOCK_ACTION.

Definition tennesseeInput : ContractValidationInput :=
  mkInput "TN" None None (Some 0.12%float) None None None None None None None.

(** Florida's caps, and a 15% fee in an emergency. *)
Definition floridaCaps : Caps := mkCaps 0.20 0.10.

Definition floridaRule : Rule :=
  ruleOf "FL" "FEE_CAP" "DYNAMIC_CAP" (TCaps floridaCaps) BLOCK_ACTION.

Definition floridaInput : ContractValidationInput :=
  mkInput "FL" None None (Some 0.15%float) None None (Some true) None None None None.

Definition negativeCapsRule : Rule :=
  ruleOf "FL" "FEE_CAP" "DYNAMIC_CAP" (TCaps (mkCaps (-1) (-1))) BLOCK_ACTION.

(** Delaware's scale. *)
Definition delawareScale : Scale := mkScale 25000 0.025 0.12.

(** A scale whose second-tier percentage is not finite. *)
Definition unboundedScale : Scale := mkScale 25000 0.025 PrimFloat.infinity.

Definition delawareRule : Rule :=
  ruleOf "DE" "FEE_CAP" "SLIDING_SCALE" (TScale delawareScale) BLOCK_ACTION.

Definition delawareInput (fee claim : float) : ContractValidationInput :=
  mkInput "DE" None None None (Some fee) (Some claim) None None None None None.

(** The notes of the fee-cap query when no rule caps the fee. *)
Definition fallbackNotes : string := "Standard reasonableness cap (no statutory limit)".

(** A catalog with no fee cap for the code [ZZ]. *)
Definition sampleCatalog : Catalog := [tennesseeRule; floridaRule; delawareRule].

(** A rule of a logic type the schema lists and the engine has no case for. *)
Definition forbiddenServiceRule : Rule :=
  ruleOf "NY" "UPL_PREVENTION" "FORBIDDEN_SERVICE" (TStrings ["LEGAL_ADVICE"]) BLOCK_ACTION.

(** The evaluations of the rules, in order; [None] as soon as one of them
    has none. *)
Fixpoint evaluateAll (input : ContractValidationInput) (rules : list Rule)
  : option (list (Rule * Evaluation)) :=
  match rules with
  | [] => ret []
  | rule :: rest =>
      result <- evaluateRule rule input ;;
      results <- evaluateAll input rest ;;
      ret ((rule, result) :: results)
  end.

(** The three classes of the aggregation, on a rule and its evaluation. *)
Definition isViolation (p : Rule * Evaluation) : bool :=
  violated (snd p)
  && (Severity_eqb (severity (fst p)) BLOCK_ACTION
      || Severity_eqb (severity (fst p)) WARN_BLOCK).

Definition isBlocked (p : Rule * Evaluation) : bool :=
  violated (snd p) && Severity_eqb (severity (fst p)) BLOCK_ACTION.

Definition isWarning (p : Rule * Evaluation) : bool :=
  violated (snd p)
  && (Severity_eqb (severity (fst p)) WARN_CONTINUE
      || Severity_eqb (severity (fst p)) INFO_ONLY).

Definition violationsOf (results : list (Rule * Evaluation)) : list ComplianceViolation :=
  map (fun p => toViolation (fst p) (snd p)) (filter isViolation results).

Definition warningsOf (results : list (Rule * Evaluation)) : list ComplianceWarning :=
  map (fun p => toWarning (fst p) (snd p)) (filter isWarning results).

Definition blockedActionsOf (results : list (Rule * Evaluation)) : list string :=
  map (fun p => category (fst p)) (filter isBlocked results).

(** The payload has the shape the rule's handler casts it to. *)
Definition wellShaped (rule : Rule) : bool :=
  let lt := logicType rule in
  let t := thresholdValue rule in
  let strings := match t with TStrings _ => true | _ => false end in
  let caps := match t with TCaps _ => true | _ => false end in
  if String.eqb lt "FORBIDDEN_KEYWORD" then strings
  else if String.eqb lt "FORBIDDEN_ACTION" then true
  else if String.eqb lt "FORBIDDEN_FEE_TYPE" then strings
  else if String.eqb lt "MAX_PERCENTAGE"
  then match t with TNumber _ => true | _ => false end
  else if String.eqb lt "DYNAMIC_CAP" then caps
  else if String.eqb lt "SLIDING_SCALE"
  then match t with TScale _ => true | _ => false end
  else if String.eqb lt "TIME_WINDOW"
  then match t with TWindow _ => true | _ => false end
  else if String.eqb lt "TIME_BASED_RESTRICTION"
  then match t with TRestriction _ => true | _ => false end
  else if String.eqb lt "LANGUAGE_REQUIREMENT" then strings
  else if String.eqb lt "REQUIRED_DISCLOSURE" then true
  else if String.eqb lt "DYNAMIC_RESCISSION" then caps
  else true.

(** A total ban whose severity is the schema's fifth value. *)
Definition warningOnlyBan : Rule :=
  ruleOf "AL" "LICENSE_RESTRICTION" "FORBIDDEN_ACTION" (TText "") WARNING_ONLY.

(** A fired rule that [validateContract] puts in neither list. *)
Definition isDropped (p : Rule * Evaluation) : bool :=
  violated (snd p) && Severity_eqb (severity (fst p)) WARNING_ONLY.

(** Alabama's total ban, and a contract there. *)
Definition alabamaBan : Rule :=
  ruleOf "AL" "LICENSE_RESTRICTION" "FORBIDDEN_ACTION" (TText "") BLOCK_ACTION.

Definition contractInput (code : string) : ContractValidationInput :=
  mkInput code None None None None None None None None (Some CONTRACT) None.

(** Florida's solicitation window, and a solicitation at a given hour. *)
Definition floridaWindow : Rule :=
  ruleOf "FL" "SOLICITATION" "TIME_WINDOW" (TWindow (mkWindow "08:00" "20:00"))
    WARN_BLOCK.

Definition solicitationAt (hour : Z) : ContractValidationInput :=
  mkInput "FL" None None None None None None None None (Some SOLICITATION)
    (Some (mkDate (Some hour))).

(** Louisiana's forbidden fee types. *)
Definition louisianaRule : Rule :=
  ruleOf "LA" "FEE_STRUCTURE" "FORBIDDEN_FEE_TYPE"
    (TStrings ["CONTINGENCY"; "PERCENTAGE"]) BLOCK_ACTION.

(** ** Vocabulary of the further properties *)

(** The condition of the query of [validateContract], on one rule. *)
Definition applies (code : string) (rule : Rule) : bool :=
  (String.eqb (stateCode rule) code || String.eqb (stateCode rule) "DEFAULT_GREEN")
  && isActive rule.

(** An input with another state code. *)
Definition withStateCode (code : string) (input : ContractValidationInput)
  : ContractValidationInput :=
  mkInput code (claimType input) (feeType input) (feePercentage input)
    (feeAmount input) (claimAmount input) (isEmergency input)
    (isDeclaredDisaster input) (contractLanguage input) (actionType input)
    (solicitationTime input).

(** An input with another contract language. *)
Definition withLanguage (language : option string) (input : ContractValidationInput)
  : ContractValidationInput :=
  mkInput (inStateCode input) (claimType input) (feeType input) (feePercentage input)
    (feeAmount input) (claimAmount input) (isEmergency input)
    (isDeclaredDisaster input) language (actionType input)
    (solicitationTime input).

(** The two verdicts of two catalogs, put together. *)
Definition appendResults (a b : ComplianceValidationResult) : ComplianceValidationResult :=
  mkResult (isValid a && isValid b) (violations a ++ violations b)
    (warnings a ++ warnings b) (blockedActions a ++ blockedActions b).

(** The severities that make a fired rule a violation. *)
Definition blocking (sev : Severity) : bool :=
  Severity_eqb sev BLOCK_ACTION || Severity_eqb sev WARN_BLOCK.

(** A time of day as the catalog writes it, [HH:MM]: the hour on two
    digits, then whatever follows the colon. *)
Definition digitChar (n : nat) : ascii := ascii_of_nat (48 + n).

Definition twoDigits (n : nat) : string :=
  String (digitChar (n / 10)) (String (digitChar (n mod 10)) EmptyString).

Definition clock (hour : nat) (minutes : string) : string :=
  twoDigits hour ++ ":" ++ minutes.

(** A solicitation whose time has the given [getHours()]. *)
Definition solicitation (code : string) (hours : option Z) : ContractValidationInput :=
  mkInput code None None None None None None None None (Some SOLICITATION)
    (Some (mkDate hours)).

(** The condition of the eligibility query, on one rule. *)
Definition bansState (code : string) (rule : Rule) : bool :=
  String.eqb (stateCode rule) code
  && String.eqb (category rule) "LICENSE_RESTRICTION"
  && Severity_eqb (severity rule) BLOCK_ACTION
  && isActive rule.


(** The input that charges what the fee-cap query answered. *)
Definition quotedInput (code : string) (claim : float) (flag : bool)
  (fee : MaximumFee) : ContractValidationInput :=
  mkInput code None None (Some (maxPercentage fee)) (Some (maxAmount fee))
    (Some claim) (Some flag) None None None None.

(** A fee cap that applies to every state. *)
Definition greenCap (cap : float) (sev : Severity) : Rule :=
  ruleOf "DEFAULT_GREEN" "FEE_CAP" "MAX_PERCENTAGE" (TNumber cap) sev.

(** An input that only states a fee percentage. *)
Definition feeInput (code : string) (percentage : float) : ContractValidationInput :=
  mkInput code None None (Some percentage) None None None None None None None.

(** An input that states a fee percentage in a declared disaster. *)
Definition disasterInput (code : string) (percentage : float) : ContractValidationInput :=
  mkInput code None None (Some percentage) None None None (Some true) None None None.

(** The order of the binary64 numbers, read on a key: the sign and the
    kind first, then the exponent, then the mantissa. *)
Definition sfKey (x : spec_float) : Z * Z * Z :=
  match x with
  | S754_infinity true => (-2, 0, 0)
  | S754_finite true m e => (-1, - e, - Zpos m)
  | S754_zero _ => (0, 0, 0)
  | S754_finite false m e => (1, e, Zpos m)
  | S754_infinity false => (2, 0, 0)
  | S754_nan => (3, 0, 0)
  end%Z.

Definition keyLt (a b : Z * Z * Z) : Prop :=
  let '(a1, a2, a3) := a in
  let '(b1, b2, b3) := b in
  (a1 < b1 \/ (a1 = b1 /\ (a2 < b2 \/ (a2 = b2 /\ a3 < b3))))%Z.

Definition keyEq (a b : Z * Z * Z) : Prop :=
  let '(a1, a2, a3) := a in
  let '(b1, b2, b3) := b in
  (a1 = b1 /\ a2 = b2 /\ a3 = b3)%Z.

Definition sfNumber (x : spec_float) : Prop := x <> S754_nan.

(** An input with another fee percentage, and with another fee amount. *)
Definition withFeePercentage (percentage : float) (input : ContractValidationInput)
  : ContractValidationInput :=
  mkInput (inStateCode input) (claimType input) (feeType input) (Some percentage)
    (feeAmount input) (claimAmount input) (isEmergency input)
    (isDeclaredDisaster input) (contractLanguage input) (actionType input)
    (solicitationTime input).

Definition withFeeAmount (amount : float) (input : ContractValidationInput)
  : ContractValidationInput :=
  mkInput (inStateCode input) (claimType input) (feeType input) (feePercentage input)
    (Some amount) (claimAmount input) (isEmergency input)
    (isDeclaredDisaster input) (contractLanguage input) (actionType input)
    (solicitationTime input).

(** Whether a rule fires on an input. *)
Definition fires (input : ContractValidationInput) (rule : Rule) : bool :=
  match evaluateRule rule input with
  | Some result => violated result
  | None => false
  end.

(** The fired rules that have a place in a verdict. *)
Definition reported (input : ContractValidationInput) (rule : Rule) : bool :=
  fires input rule && negb (Severity_eqb (severity rule) WARNING_ONLY).

(** * Properties *)

(** ** Facts about binary64 arithmetic

    The primitive operations are specified on [spec_float]; the facts the
    engine's properties need are read off that specification. *)

Lemma SFcompare_refl (x : spec_float) :
  SFcompare x x = if sfIsNaN x then None else Some Eq.
Proof.
  destruct x as [s|s| |s m e]; simpl; try reflexivity.
  - destruct s; reflexivity.
  - rewrite Z.compare_refl.
    assert (H : Pos.compare_cont Eq m m = Eq) by apply Pos.compare_cont_refl.
    rewrite H. destruct s; reflexivity.
Qed.

Lemma SFcompare_antisym (x y : spec_float) :
  SFcompare y x = option_map CompOpp (SFcompare x y).
Proof.
  destruct x as [s|s| |s m e], y as [s'|s'| |s' m' e']; simpl;
    try reflexivity; try (destruct s; reflexivity); try (destruct s'; reflexivity);
    try (destruct s, s'; reflexivity).
  rewrite (Z.compare_antisym e e').
  pose proof (Pos.compare_cont_antisym m m' Eq) as H. simpl in H. rewrite <- H.
  destruct s, s'; simpl; try reflexivity;
    destruct (e ?= e')%Z; simpl; try reflexivity;
    destruct (Pos.compare_cont Eq m m'); reflexivity.
Qed.

Lemma is_nan_spec (f : float) : PrimFloat.is_nan f = sfIsNaN (Prim2SF f).
Proof.
  unfold PrimFloat.is_nan. rewrite eqb_spec. unfold SFeqb.
  rewrite SFcompare_refl. destruct (Prim2SF f); reflexivity.
Qed.

Lemma is_zero_spec (f : float) : PrimFloat.is_zero f = sfIsZero (Prim2SF f).
Proof.
  unfold PrimFloat.is_zero. rewrite eqb_spec.
  change (Prim2SF PrimFloat.zero) with (S754_zero false).
  destruct (Prim2SF f) as [s|s| |s m e]; try reflexivity; destruct s; reflexivity.
Qed.

Lemma is_infinity_spec (f : float) :
  PrimFloat.is_infinity f = sfIsInfinity (Prim2SF f).
Proof.
  unfold PrimFloat.is_infinity. rewrite eqb_spec, abs_spec.
  change (Prim2SF PrimFloat.infinity) with (S754_infinity false).
  destruct (Prim2SF f) as [s|s| |s m e]; reflexivity.
Qed.

Lemma is_finite_spec (f : float) :
  PrimFloat.is_finite f = negb (sfIsNaN (Prim2SF f) || sfIsInfinity (Prim2SF f)).
Proof.
  unfold PrimFloat.is_finite. now rewrite is_nan_spec, is_infinity_spec.
Qed.

Lemma finite_not_nan (f : float) :
  PrimFloat.is_finite f = true -> PrimFloat.is_nan f = false.
Proof.
  unfold PrimFloat.is_finite. destruct (PrimFloat.is_nan f); [discriminate | reflexivity].
Qed.

Lemma ltb_irrefl (f : float) : PrimFloat.ltb f f = false.
Proof.
  rewrite ltb_spec. unfold SFltb. rewrite SFcompare_refl.
  destruct (sfIsNaN (Prim2SF f)); reflexivity.
Qed.

Lemma eqb_not_ltb (x y : float) :
  PrimFloat.eqb x y = true -> PrimFloat.ltb y x = false.
Proof.
  rewrite eqb_spec, ltb_spec. unfold SFeqb, SFltb.
  rewrite (SFcompare_antisym (Prim2SF x) (Prim2SF y)).
  destruct (SFcompare (Prim2SF x) (Prim2SF y)) as [[| |]|]; simpl;
    intros H; try discriminate; reflexivity.
Qed.

Lemma ltb_nan_l (x y : float) : PrimFloat.is_nan x = true -> PrimFloat.ltb x y = false.
Proof.
  rewrite is_nan_spec, ltb_spec. unfold SFltb.
  destruct (Prim2SF x); try discriminate. reflexivity.
Qed.

Lemma ltb_nan_r (x y : float) : PrimFloat.is_nan y = true -> PrimFloat.ltb x y = false.
Proof.
  rewrite is_nan_spec, ltb_spec. unfold SFltb.
  destruct (Prim2SF y); try discriminate. destruct (Prim2SF x); reflexivity.
Qed.

Lemma mul_nan_l (x y : float) :
  PrimFloat.is_nan x = true -> PrimFloat.is_nan (x * y) = true.
Proof.
  rewrite !is_nan_spec, mul_spec.
  destruct (Prim2SF x); try discriminate. reflexivity.
Qed.

Lemma add_nan_l (x y : float) :
  PrimFloat.is_nan x = true -> PrimFloat.is_nan (x + y) = true.
Proof.
  rewrite !is_nan_spec, add_spec.
  destruct (Prim2SF x); try discriminate. reflexivity.
Qed.

Lemma mul_comm (x y : float) : (x * y)%float = (y * x)%float.
Proof.
  apply Prim2SF_inj. rewrite !mul_spec. unfold SF64mul.
  destruct (Prim2SF x) as [s|s| |s m e], (Prim2SF y) as [s'|s'| |s' m' e']; simpl;
    try reflexivity; try (now rewrite xorb_comm).
  now rewrite xorb_comm, Pos.mul_comm, Z.add_comm.
Qed.

(** Dividing by a zero never gives a finite number. *)
Lemma div_zero_not_finite (x z : float) :
  PrimFloat.is_zero z = true -> PrimFloat.is_finite (x / z) = false.
Proof.
  rewrite is_zero_spec, is_finite_spec, div_spec. unfold SF64div.
  destruct (Prim2SF z); try discriminate.
  destruct (Prim2SF x); reflexivity.
Qed.

(** [0 / 0] is [NaN]. *)
Lemma div_zero_zero (x z : float) :
  PrimFloat.is_zero x = true -> PrimFloat.is_zero z = true ->
  PrimFloat.is_nan (x / z) = true.
Proof.
  rewrite !is_zero_spec, is_nan_spec, div_spec. unfold SF64div.
  destruct (Prim2SF x); try discriminate.
  destruct (Prim2SF z); try discriminate. reflexivity.
Qed.

(** [x - x] is [+0] for a finite [x]. *)
Lemma sub_diag (x : float) :
  PrimFloat.is_finite x = true -> (x - x)%float = PrimFloat.zero.
Proof.
  rewrite is_finite_spec. intros H.
  apply Prim2SF_inj. rewrite sub_spec.
  change (Prim2SF PrimFloat.zero) with (S754_zero false). unfold SF64sub.
  destruct (Prim2SF x) as [s|s| |s m e]; try discriminate.
  - destruct s; reflexivity.
  - unfold SFsub, shl_align. rewrite Z.min_id, !Z.sub_diag. reflexivity.
Qed.

Lemma mul_zero_l (z p : float) :
  PrimFloat.is_zero z = true -> PrimFloat.is_finite p = true ->
  PrimFloat.is_zero (z * p) = true.
Proof.
  rewrite !is_zero_spec, is_finite_spec, mul_spec. unfold SF64mul.
  destruct (Prim2SF z); try discriminate.
  destruct (Prim2SF p); try discriminate; reflexivity.
Qed.

Lemma add_zero_r (x z : float) :
  PrimFloat.is_zero z = true -> PrimFloat.is_nan x = false ->
  PrimFloat.eqb (x + z) x = true.
Proof.
  rewrite is_zero_spec, is_nan_spec, eqb_spec, add_spec. unfold SF64add, SFeqb.
  destruct (Prim2SF z) as [sz| | |]; try discriminate. intros _.
  destruct (Prim2SF x) as [s|s| |s m e]; try discriminate; intros _.
  - destruct s, sz; reflexivity.
  - destruct s; reflexivity.
  - unfold SFadd. rewrite SFcompare_refl. reflexivity.
Qed.

(** Rounding a mantissa that is not negative never produces [NaN]. *)
Lemma shr_1_nonneg (r : shr_record) : (0 <= shr_m r)%Z -> (0 <= shr_m (shr_1 r))%Z.
Proof.
  destruct r as [m r s]; destruct m as [|p|p]; simpl; intros H; try lia;
    destruct p; simpl; lia.
Qed.

Lemma iter_pos_invariant {A : Type} (P : A -> Prop) (f : A -> A) :
  (forall x, P x -> P (f x)) -> forall p x, P x -> P (iter_pos f p x).
Proof.
  intros Hf. induction p as [p IH|p IH|]; intros x Hx; simpl; auto.
Qed.

Lemma shr_nonneg (mrs : shr_record) (e n : Z) :
  (0 <= shr_m mrs)%Z -> (0 <= shr_m (fst (shr mrs e n)))%Z.
Proof.
  intros H. destruct n; simpl; auto.
  apply (iter_pos_invariant (fun r => (0 <= shr_m r)%Z)); auto using shr_1_nonneg.
Qed.

Lemma shr_fexp_nonneg (p e m ex : Z) (l : location) :
  (0 <= m)%Z -> (0 <= shr_m (fst (shr_fexp p e m ex l)))%Z.
Proof.
  intros H. unfold shr_fexp. apply shr_nonneg.
  destruct l as [|[]]; simpl; exact H.
Qed.

Lemma round_nearest_even_nonneg (m : Z) (l : location) :
  (0 <= m)%Z -> (0 <= round_nearest_even m l)%Z.
Proof.
  intros H. destruct l as [|[]]; simpl; try lia. destruct (Z.even m); lia.
Qed.

Lemma binary_round_aux_not_nan (p e : Z) (sx : bool) (mx ex : Z) (lx : location) :
  (0 <= mx)%Z -> sfIsNaN (binary_round_aux p e sx mx ex lx) = false.
Proof.
  intros H. unfold binary_round_aux.
  pose proof (shr_fexp_nonneg p e mx ex lx H) as H1.
  destruct (shr_fexp p e mx ex lx) as [mrs1 e1]. simpl in H1.
  pose proof (shr_fexp_nonneg p e _ e1 loc_Exact
                (round_nearest_even_nonneg _ (loc_of_shr_record mrs1) H1)) as H2.
  destruct (shr_fexp p e (round_nearest_even (shr_m mrs1) (loc_of_shr_record mrs1))
              e1 loc_Exact) as [mrs2 e2].
  simpl in H2. destruct (shr_m mrs2) as [|q|q]; try reflexivity.
  - destruct (e2 <=? e - p)%Z; reflexivity.
  - lia.
Qed.

(** A product of finite numbers may overflow but is never [NaN]. *)
Lemma mul_finite_not_nan (x y : float) :
  PrimFloat.is_finite x = true -> PrimFloat.is_finite y = true ->
  PrimFloat.is_nan (x * y) = false.
Proof.
  rewrite !is_finite_spec, is_nan_spec, mul_spec. unfold SF64mul.
  destruct (Prim2SF x) as [s|s| |s m e]; try discriminate; intros _;
    destruct (Prim2SF y) as [s'|s'| |s' m' e']; try discriminate; intros _;
    try reflexivity.
  unfold SFmul. apply binary_round_aux_not_nan. lia.
Qed.

(** ** Facts about [Math.min] and [Math.max] *)

Lemma min_diag (x : float) : PrimFloat.is_nan x = false -> Js.min x x = x.
Proof.
  intros H. unfold Js.min. rewrite H, ltb_irrefl. simpl.
  destruct (PrimFloat.get_sign x); reflexivity.
Qed.

Lemma min_nan_l (x y : float) :
  PrimFloat.is_nan x = true -> PrimFloat.is_nan (Js.min x y) = true.
Proof. intros H. unfold Js.min. rewrite H. reflexivity. Qed.

Lemma max_zero_zero : Js.max 0 0 = 0%float.
Proof. reflexivity. Qed.

Lemma ltb_zero_l (z y : float) :
  PrimFloat.is_zero z = true -> PrimFloat.ltb z y = PrimFloat.ltb 0 y.
Proof.
  rewrite is_zero_spec, !ltb_spec.
  change (Prim2SF 0) with (S754_zero false).
  destruct (Prim2SF z); try discriminate. intros _.
  destruct (Prim2SF y); reflexivity.
Qed.

Lemma ltb_not_nan (x y : float) :
  PrimFloat.ltb x y = true -> PrimFloat.is_nan x = false /\ PrimFloat.is_nan y = false.
Proof.
  intros H. split.
  - destruct (PrimFloat.is_nan x) eqn:E; [|reflexivity].
    now rewrite (ltb_nan_l _ _ E) in H.
  - destruct (PrimFloat.is_nan y) eqn:E; [|reflexivity].
    now rewrite (ltb_nan_r _ _ E) in H.
Qed.

Lemma ltb_asym (x y : float) : PrimFloat.ltb x y = true -> PrimFloat.ltb y x = false.
Proof.
  rewrite !ltb_spec. unfold SFltb.
  rewrite (SFcompare_antisym (Prim2SF x) (Prim2SF y)).
  destruct (SFcompare (Prim2SF x) (Prim2SF y)) as [[| |]|]; simpl;
    intros H; try discriminate; reflexivity.
Qed.

(** [Math.max(0, d)] is [0] for a negative [d]. *)
Lemma max_zero_negative (d : float) : PrimFloat.ltb d 0 = true -> Js.max 0 d = 0%float.
Proof.
  intros H. unfold Js.max.
  destruct (ltb_not_nan _ _ H) as [Hd _]. rewrite Hd, (ltb_asym _ _ H), H.
  reflexivity.
Qed.

(** A zero minus a positive number is negative. *)
Lemma sub_zero_positive (z y : float) :
  PrimFloat.is_zero z = true -> PrimFloat.ltb 0 y = true ->
  PrimFloat.ltb (z - y) 0 = true.
Proof.
  rewrite is_zero_spec, !ltb_spec, sub_spec.
  change (Prim2SF 0) with (S754_zero false). unfold SF64sub, SFltb.
  destruct (Prim2SF z) as [sz| | |]; try discriminate. intros _.
  destruct (Prim2SF y) as [s|s| |s m e]; simpl; try discriminate;
    destruct s; try discriminate; reflexivity.
Qed.

Lemma add_zero_zero (a b : float) :
  PrimFloat.is_zero a = true -> PrimFloat.is_zero b = true ->
  PrimFloat.is_zero (a + b) = true.
Proof.
  rewrite !is_zero_spec, add_spec. unfold SF64add.
  destruct (Prim2SF a) as [sa| | |]; try discriminate.
  destruct (Prim2SF b) as [sb| | |]; try discriminate.
  destruct sa, sb; reflexivity.
Qed.

Lemma min_zero_positive (z y : float) :
  PrimFloat.is_zero z = true -> PrimFloat.ltb 0 y = true -> Js.min z y = z.
Proof.
  intros Hz Hy. unfold Js.min.
  assert (H : PrimFloat.ltb z y = true) by now rewrite (ltb_zero_l _ _ Hz).
  destruct (ltb_not_nan _ _ H) as [-> ->]. now rewrite H.
Qed.

(** With a positive first-tier limit and finite percentages, the tiered
    maximum of a claim of zero is a zero. *)
Lemma maxAllowedFee_zero_claim (scale : Scale) (claim : float) :
  PrimFloat.is_zero claim = true ->
  PrimFloat.ltb 0 (tier1_limit scale) = true ->
  PrimFloat.is_finite (tier1_percent scale) = true ->
  PrimFloat.is_finite (tier2_percent scale) = true ->
  PrimFloat.is_zero (maxAllowedFee scale claim) = true.
Proof.
  intros Hz HL Hp1 Hp2. unfold maxAllowedFee, tier1Amount, tier2Amount.
  rewrite (min_zero_positive _ _ Hz HL).
  rewrite (max_zero_negative _ (sub_zero_positive _ _ Hz HL)).
  apply add_zero_zero; now apply mul_zero_l.
Qed.

(** ** The dispatch of [evaluateRule] *)

Lemma evaluateRule_FORBIDDEN_ACTION rule input :
  logicType rule = "FORBIDDEN_ACTION" ->
  evaluateRule rule input = evaluateForbiddenAction rule input.
Proof. intros H. unfold evaluateRule. rewrite H. reflexivity. Qed.

Lemma evaluateRule_FORBIDDEN_FEE_TYPE rule input :
  logicType rule = "FORBIDDEN_FEE_TYPE" ->
  evaluateRule rule input = evaluateForbiddenFeeType rule input.
Proof. intros H. unfold evaluateRule. rewrite H. reflexivity. Qed.

Lemma evaluateRule_MAX_PERCENTAGE rule input :
  logicType rule = "MAX_PERCENTAGE" ->
  evaluateRule rule input = evaluateMaxPercentage rule input.
Proof. intros H. unfold evaluateRule. rewrite H. reflexivity. Qed.

Lemma evaluateRule_DYNAMIC_CAP rule input :
  logicType rule = "DYNAMIC_CAP" ->
  evaluateRule rule input = evaluateDynamicCap rule input.
Proof. intros H. unfold evaluateRule. rewrite H. reflexivity. Qed.

Lemma evaluateRule_SLIDING_SCALE rule input :
  logicType rule = "SLIDING_SCALE" ->
  evaluateRule rule input = evaluateSlidingScale rule input.
Proof. intros H. unfold evaluateRule. rewrite H. reflexivity. Qed.

(** A falsy number is a zero or [NaN], and [NaN] exceeds nothing. *)
Lemma falsy_gt (x y : float) :
  (if Js.falsyNumber x then false else Js.gt x y)
  = negb (PrimFloat.is_zero x) && Js.gt x y.
Proof.
  unfold Js.falsyNumber, Js.gt.
  destruct (PrimFloat.is_zero x); simpl; [reflexivity|].
  destruct (PrimFloat.is_nan x) eqn:E; [|reflexivity].
  now rewrite ltb_nan_r.
Qed.

(** ** MAX_PERCENTAGE *)

(** C3, as amended: for a MAX_PERCENTAGE rule with cap [c], an absent fee
    percentage never fires; a present one fires exactly when it is not zero
    and strictly exceeds [c] (the guard [!feePercentage] treats [0] like an
    absent value); a fee percentage equal to [c] never fires. *)
Theorem maxPercentage_fires (rule : Rule) (input : ContractValidationInput) (c : float) :
  logicType rule = "MAX_PERCENTAGE" ->
  thresholdValue rule = TNumber c ->
  (feePercentage input = None -> evaluateRule rule input = Some notViolated)
  /\ (forall fee, feePercentage input = Some fee ->
        exists ev, evaluateRule rule input = Some ev
          /\ violated ev = negb (PrimFloat.is_zero fee) && Js.gt fee c
          /\ (PrimFloat.eqb fee c = true -> violated ev = false)).
Proof.
  intros Hlogic Hpayload.
  rewrite (evaluateRule_MAX_PERCENTAGE rule input Hlogic).
  unfold evaluateMaxPercentage. rewrite Hpayload. split.
  - intros ->. reflexivity.
  - intros fee ->. rewrite <- falsy_gt.
    destruct (Js.falsyNumber fee); simpl.
    + eexists; repeat split.
    + eexists; repeat split. simpl. intros E. now apply eqb_not_ltb.
Qed.

Lemma maxPercentage_fires_witness :
  logicType tennesseeRule = "MAX_PERCENTAGE"
  /\ thresholdValue tennesseeRule = TNumber 0.10
  /\ exists ev, evaluateRule tennesseeRule tennesseeInput = Some ev
                /\ violated ev = true.
Proof.
  split; [reflexivity|]. split; [reflexivity|].
  destruct (maxPercentage_fires tennesseeRule tennesseeInput 0.10 eq_refl eq_refl)
    as [_ H].
  destruct (H 0.12%float eq_refl) as [ev [H1 [H2 _]]].
  exists ev. split; [exact H1 | rewrite H2; reflexivity].
Defined.

(** C3 as stated fails: a fee percentage of [0] exceeds a cap of [-1], and
    the rule does not fire. *)
Lemma maxPercentage_zero_fee_not_fired :
  logicType negativeCapRule = "MAX_PERCENTAGE"
  /\ thresholdValue negativeCapRule = TNumber (-1)
  /\ feePercentage zeroFeeInput = Some 0%float
  /\ Js.gt 0 (-1) = true
  /\ evaluateRule negativeCapRule zeroFeeInput = Some notViolated.
Proof. repeat split. Qed.

(** ** DYNAMIC_CAP *)

(** C7, as amended: for a DYNAMIC_CAP rule with caps [{standard, emergency}],
    an absent fee percentage never fires; a present one fires exactly when
    it is not zero and exceeds the emergency cap if [isEmergency] or
    [isDeclaredDisaster] holds, the standard cap otherwise. *)
Theorem dynamicCap_fires (rule : Rule) (input : ContractValidationInput) (caps : Caps) :
  logicType rule = "DYNAMIC_CAP" ->
  thresholdValue rule = TCaps caps ->
  (feePercentage input = None -> evaluateRule rule input = Some notViolated)
  /\ (forall fee, feePercentage input = Some fee ->
        exists ev, evaluateRule rule input = Some ev
          /\ violated ev =
               negb (PrimFloat.is_zero fee)
               && Js.gt fee
                    (if Js.truthyBool (isEmergency input)
                        || Js.truthyBool (isDeclaredDisaster input)
                     then emergency caps else standard caps)).
Proof.
  intros Hlogic Hpayload.
  rewrite (evaluateRule_DYNAMIC_CAP rule input Hlogic).
  unfold evaluateDynamicCap. rewrite Hpayload. split.
  - intros ->. reflexivity.
  - intros fee ->. rewrite <- falsy_gt.
    destruct (Js.falsyNumber fee); simpl; eexists; repeat split.
Qed.

(** Caps [{standard: 0.20, emergency: 0.10}] with a fee of [0.15] in an
    emergency: the rule fires. *)
Lemma dynamicCap_fires_witness :
  logicType floridaRule = "DYNAMIC_CAP"
  /\ thresholdValue floridaRule = TCaps floridaCaps
  /\ exists ev, evaluateRule floridaRule floridaInput = Some ev
                /\ violated ev = true.
Proof.
  split; [reflexivity|]. split; [reflexivity|].
  destruct (dynamicCap_fires floridaRule floridaInput floridaCaps eq_refl eq_refl)
    as [_ H].
  destruct (H 0.15%float eq_refl) as [ev [H1 H2]].
  exists ev. split; [exact H1 | rewrite H2; reflexivity].
Defined.

(** C7 as stated fails: a fee percentage of [0] exceeds caps of [-1], and
    the rule does not fire. *)
Lemma dynamicCap_zero_fee_not_fired :
  logicType negativeCapsRule = "DYNAMIC_CAP"
  /\ thresholdValue negativeCapsRule = TCaps (mkCaps (-1) (-1))
  /\ feePercentage zeroFeeInput = Some 0%float
  /\ Js.gt 0 (-1) = true
  /\ evaluateRule negativeCapsRule zeroFeeInput = Some notViolated.
Proof. repeat split. Qed.

(** ** FORBIDDEN_ACTION *)

(** C5: a FORBIDDEN_ACTION rule fires for every input, the input with every
    optional field absent included, and whatever its threshold payload is. *)
Theorem forbiddenAction_always_fires (rule : Rule) (input : ContractValidationInput) :
  logicType rule = "FORBIDDEN_ACTION" ->
  (exists ev, evaluateRule rule input = Some ev /\ violated ev = true)
  /\ (exists ev, evaluateRule rule (emptyInput (inStateCode input)) = Some ev
                 /\ violated ev = true)
  /\ (forall payload,
        evaluateRule
          (mkRule (_id rule) (stateCode rule) (category rule) (description rule)
             (isActive rule) (logicType rule) payload (severity rule)
             (errorMessage rule) (legalBasis rule))
          input
        = evaluateRule rule input).
Proof.
  intros Hlogic. repeat split.
  - rewrite (evaluateRule_FORBIDDEN_ACTION _ _ Hlogic). eexists; split; reflexivity.
  - rewrite (evaluateRule_FORBIDDEN_ACTION _ _ Hlogic). eexists; split; reflexivity.
  - intros payload.
    rewrite (evaluateRule_FORBIDDEN_ACTION rule input Hlogic).
    rewrite evaluateRule_FORBIDDEN_ACTION by exact Hlogic. reflexivity.
Qed.

Lemma forbiddenAction_always_fires_witness :
  logicType (ruleOf "AL" "LICENSE_RESTRICTION" "FORBIDDEN_ACTION" (TText "") BLOCK_ACTION)
  = "FORBIDDEN_ACTION"
  /\ exists ev,
       evaluateRule
         (ruleOf "AL" "LICENSE_RESTRICTION" "FORBIDDEN_ACTION" (TText "") BLOCK_ACTION)
         (emptyInput "AL") = Some ev
       /\ violated ev = true.
Proof.
  split; [reflexivity|].
  exact (proj1 (forbiddenAction_always_fires
                  (ruleOf "AL" "LICENSE_RESTRICTION" "FORBIDDEN_ACTION" (TText "")
                     BLOCK_ACTION)
                  (emptyInput "AL") eq_refl)).
Defined.

(** ** FORBIDDEN_FEE_TYPE *)

Lemma arrayIncludes_In (xs : list string) (x : string) :
  Js.arrayIncludes xs x = true <-> In x xs.
Proof.
  unfold Js.arrayIncludes. rewrite existsb_exists. split.
  - intros [y [Hy E]]. apply String.eqb_eq in E. now subst.
  - intros H. exists x. split; [exact H | apply String.eqb_refl].
Qed.

Lemma FeeType_name_inj (a b : FeeType) : FeeType_name a = FeeType_name b -> a = b.
Proof. destruct a, b; simpl; intros H; try reflexivity; discriminate. Qed.

Lemma FeeType_name_nonempty (a : FeeType) : FeeType_name a <> "".
Proof. destruct a; discriminate. Qed.

(** Whatever strings the payload lists, the rule fires exactly when the
    list holds [feeType || '']. *)
Lemma forbiddenFeeType_fires_strings (rule : Rule) (input : ContractValidationInput)
  (xs : list string) :
  logicType rule = "FORBIDDEN_FEE_TYPE" ->
  thresholdValue rule = TStrings xs ->
  exists ev, evaluateRule rule input = Some ev
    /\ (violated ev = true
        <-> In (match feeType input with Some f => FeeType_name f | None => "" end) xs).
Proof.
  intros Hlogic Hpayload.
  rewrite (evaluateRule_FORBIDDEN_FEE_TYPE rule input Hlogic).
  unfold evaluateForbiddenFeeType. rewrite Hpayload. simpl.
  eexists. split; [reflexivity|]. simpl. apply arrayIncludes_In.
Qed.

(** C6: for a FORBIDDEN_FEE_TYPE rule carrying a list of fee types, an
    absent fee type never fires, and a present one fires exactly when it is
    in the list. *)
Theorem forbiddenFeeType_fires (rule : Rule) (input : ContractValidationInput)
  (types : list FeeType) :
  logicType rule = "FORBIDDEN_FEE_TYPE" ->
  thresholdValue rule = TStrings (map FeeType_name types) ->
  (feeType input = None -> evaluateRule rule input = Some notViolated)
  /\ (forall fee, feeType input = Some fee ->
        exists ev, evaluateRule rule input = Some ev
                   /\ (violated ev = true <-> In fee types)).
Proof.
  intros Hlogic Hpayload. split.
  - intros Habsent.
    rewrite (evaluateRule_FORBIDDEN_FEE_TYPE rule input Hlogic).
    unfold evaluateForbiddenFeeType. rewrite Hpayload, Habsent. simpl.
    destruct (Js.arrayIncludes (map FeeType_name types) "") eqn:E; [|reflexivity].
    apply arrayIncludes_In, in_map_iff in E. destruct E as [t [Ht _]].
    now apply FeeType_name_nonempty in Ht.
  - intros fee Hfee.
    destruct (forbiddenFeeType_fires_strings rule input _ Hlogic Hpayload)
      as [ev [Hev Hiff]].
    exists ev. split; [exact Hev|]. rewrite Hiff, Hfee, in_map_iff. split.
    + intros [t [Ht Hin]]. apply FeeType_name_inj in Ht. now subst.
    + intros Hin. now exists fee.
Qed.

(** Louisiana's rule [FORBIDDEN_FEE_TYPE [CONTINGENCY, PERCENTAGE]] with
    [feeType: "PERCENTAGE"] fires. *)
Lemma forbiddenFeeType_fires_witness :
  logicType louisianaRule = "FORBIDDEN_FEE_TYPE"
  /\ thresholdValue louisianaRule = TStrings (map FeeType_name [CONTINGENCY; PERCENTAGE])
  /\ exists ev,
       evaluateRule louisianaRule
         (mkInput "LA" None (Some PERCENTAGE) None None None None None None None None)
       = Some ev
       /\ violated ev = true.
Proof.
  split; [reflexivity|]. split; [reflexivity|].
  destruct (forbiddenFeeType_fires louisianaRule
              (mkInput "LA" None (Some PERCENTAGE) None None None None None None None None)
              [CONTINGENCY; PERCENTAGE] eq_refl eq_refl) as [_ H].
  destruct (H PERCENTAGE eq_refl) as [ev [H1 H2]].
  exists ev. split; [exact H1|]. apply H2. simpl. auto.
Defined.

(** ** SLIDING_SCALE *)

Lemma maxAllowedFee_nan (scale : Scale) (claim : float) :
  PrimFloat.is_nan claim = true -> PrimFloat.is_nan (maxAllowedFee scale claim) = true.
Proof.
  intros H. unfold maxAllowedFee, tier1Amount.
  apply add_nan_l, mul_nan_l, min_nan_l, H.
Qed.

(** The two guards and the comparison of [evaluateSlidingScale], as one
    condition. *)
Lemma slidingScale_condition (scale : Scale) (fee claim : float) :
  (if Js.falsyNumber fee || Js.falsyNumber claim then false
   else Js.gt fee (maxAllowedFee scale claim))
  = negb (PrimFloat.is_zero fee) && negb (PrimFloat.is_zero claim)
    && Js.gt fee (maxAllowedFee scale claim).
Proof.
  unfold Js.falsyNumber, Js.gt.
  destruct (PrimFloat.is_zero fee); simpl; [reflexivity|].
  destruct (PrimFloat.is_nan fee) eqn:Efee; simpl.
  - rewrite (ltb_nan_r _ _ Efee). now rewrite andb_false_r.
  - destruct (PrimFloat.is_zero claim); simpl; [reflexivity|].
    destruct (PrimFloat.is_nan claim) eqn:Eclaim; [|reflexivity].
    now rewrite (ltb_nan_l _ fee (maxAllowedFee_nan scale claim Eclaim)).
Qed.

(** At [claimAmount = tier1_limit], with finite parameters: the second tier
    contributes a zero and the maximum is [tier1_limit * tier1_percent]. *)
Lemma maxAllowedFee_boundary (scale : Scale) :
  PrimFloat.is_finite (tier1_limit scale) = true ->
  PrimFloat.is_finite (tier1_percent scale) = true ->
  PrimFloat.is_finite (tier2_percent scale) = true ->
  tier1Amount scale (tier1_limit scale) = (tier1_limit scale * tier1_percent scale)%float
  /\ PrimFloat.is_zero (tier2Amount scale (tier1_limit scale)) = true
  /\ PrimFloat.eqb (maxAllowedFee scale (tier1_limit scale))
       (tier1_limit scale * tier1_percent scale) = true.
Proof.
  intros HL Hp1 Hp2.
  assert (H1 : tier1Amount scale (tier1_limit scale)
               = (tier1_limit scale * tier1_percent scale)%float).
  { unfold tier1Amount. now rewrite (min_diag _ (finite_not_nan _ HL)). }
  assert (H2 : PrimFloat.is_zero (tier2Amount scale (tier1_limit scale)) = true).
  { unfold tier2Amount. rewrite (sub_diag _ HL).
    change (Js.max 0 PrimFloat.zero) with PrimFloat.zero.
    now apply mul_zero_l. }
  repeat split; [exact H1 | exact H2 |].
  unfold maxAllowedFee. rewrite H1.
  apply add_zero_r; [exact H2 | now apply mul_finite_not_nan].
Qed.

(** C4, as amended: for a SLIDING_SCALE rule with parameters [scale], the
    rule does not fire when [feeAmount] or [claimAmount] is absent; when
    both are present it fires exactly when neither is zero and [feeAmount]
    exceeds [min(claimAmount, tier1_limit) * tier1_percent
    + max(0, claimAmount - tier1_limit) * tier2_percent] (the guard treats a
    [0] like an absent value).  With [{25000, 0.025, 0.12}] and a claim of
    100000 the maximum is 9625: a fee of 9625 does not fire and 9626 fires.
    At [claimAmount = tier1_limit], for finite parameters, the maximum is
    [tier1_limit * tier1_percent] and the second tier contributes zero. *)
Theorem slidingScale_fires (rule : Rule) (input : ContractValidationInput) (scale : Scale) :
  logicType rule = "SLIDING_SCALE" ->
  thresholdValue rule = TScale scale ->
  (feeAmount input = None \/ claimAmount input = None ->
   evaluateRule rule input = Some notViolated)
  /\ (forall fee claim,
        feeAmount input = Some fee -> claimAmount input = Some claim ->
        exists ev, evaluateRule rule input = Some ev
          /\ violated ev =
               negb (PrimFloat.is_zero fee) && negb (PrimFloat.is_zero claim)
               && Js.gt fee
                    (Js.min claim (tier1_limit scale) * tier1_percent scale
                     + Js.max 0 (claim - tier1_limit scale) * tier2_percent scale)%float)
  /\ (maxAllowedFee delawareScale 100000 = 9625%float
      /\ evaluateRule delawareRule (delawareInput 9625 100000) = Some notViolated
      /\ exists ev, evaluateRule delawareRule (delawareInput 9626 100000) = Some ev
                    /\ violated ev = true)
  /\ (PrimFloat.is_finite (tier1_limit scale) = true ->
      PrimFloat.is_finite (tier1_percent scale) = true ->
      PrimFloat.is_finite (tier2_percent scale) = true ->
      PrimFloat.is_zero
        (Js.max 0 (tier1_limit scale - tier1_limit scale) * tier2_percent scale) = true
      /\ PrimFloat.eqb (maxAllowedFee scale (tier1_limit scale))
           (tier1_limit scale * tier1_percent scale) = true).
Proof.
  intros Hlogic Hpayload.
  rewrite (evaluateRule_SLIDING_SCALE rule input Hlogic).
  unfold evaluateSlidingScale. rewrite Hpayload.
  split; [|split; [|split]].
  - intros [-> | ->]; [reflexivity|]. destruct (feeAmount input); reflexivity.
  - intros fee claim -> ->.
    change (Js.min claim (tier1_limit scale) * tier1_percent scale
            + Js.max 0 (claim - tier1_limit scale) * tier2_percent scale)%float
      with (maxAllowedFee scale claim).
    rewrite <- slidingScale_condition.
    destruct (Js.falsyNumber fee || Js.falsyNumber claim); simpl;
      eexists; split; reflexivity.
  - split; [reflexivity|]. split; [reflexivity|].
    eexists. split; reflexivity.
  - intros HL Hp1 Hp2.
    destruct (maxAllowedFee_boundary scale HL Hp1 Hp2) as [_ [H2 H3]].
    split; [exact H2 | exact H3].
Qed.

Lemma slidingScale_fires_witness :
  logicType delawareRule = "SLIDING_SCALE"
  /\ thresholdValue delawareRule = TScale delawareScale
  /\ (exists ev, evaluateRule delawareRule (delawareInput 700 25000) = Some ev
                 /\ violated ev = true)
  /\ PrimFloat.eqb (maxAllowedFee delawareScale 25000) 625 = true.
Proof.
  split; [reflexivity|]. split; [reflexivity|].
  destruct (slidingScale_fires delawareRule (delawareInput 700 25000) delawareScale
              eq_refl eq_refl) as [_ [H [_ HB]]].
  split.
  - destruct (H 700%float 25000%float eq_refl eq_refl) as [ev [H1 H2]].
    exists ev. split; [exact H1 | rewrite H2; reflexivity].
  - destruct (HB eq_refl eq_refl eq_refl) as [_ H3]. exact H3.
Defined.

(** C4 as stated fails: with Delaware's scale and a claim of [0] the
    maximum is [0]; a fee of [5] exceeds it, and the rule does not fire.
    And with a second-tier percentage of [Infinity] the maximum at
    [claimAmount = tier1_limit] is [NaN], not [tier1_limit * tier1_percent]. *)
Lemma slidingScale_zero_claim_not_fired :
  logicType delawareRule = "SLIDING_SCALE"
  /\ thresholdValue delawareRule = TScale delawareScale
  /\ feeAmount (delawareInput 5 0) = Some 5%float
  /\ claimAmount (delawareInput 5 0) = Some 0%float
  /\ Js.gt 5 (Js.min 0 25000 * 0.025 + Js.max 0 (0 - 25000) * 0.12)%float = true
  /\ evaluateRule delawareRule (delawareInput 5 0) = Some notViolated
  /\ PrimFloat.is_nan
       (Js.min 25000 (tier1_limit unboundedScale) * tier1_percent unboundedScale
        + Js.max 0 (25000 - tier1_limit unboundedScale) * tier2_percent unboundedScale)
     = true.
Proof. repeat split. Qed.

(** ** The fee-cap query *)

Lemma find_none_iff {A : Type} (f : A -> bool) (l : list A) :
  find f l = None <-> forall x, In x l -> f x = false.
Proof.
  split; [apply find_none|].
  induction l as [|a l IH]; intros H; simpl; [reflexivity|].
  rewrite (H a (or_introl eq_refl)). apply IH. intros x Hx. apply H. now right.
Qed.

Lemma findFeeRule_none (catalog : Catalog) (code : string) :
  (forall rule, In rule catalog ->
     stateCode rule = code -> category rule = "FEE_CAP" -> isActive rule = false) ->
  findFeeRule catalog code = None.
Proof.
  intros H. apply find_none_iff. intros rule Hin.
  destruct (String.eqb_spec (stateCode rule) code) as [E1|]; [|reflexivity].
  destruct (String.eqb_spec (category rule) "FEE_CAP") as [E2|]; [|reflexivity].
  simpl. now apply H.
Qed.

(** The notes of a cap that comes from a rule. *)
Lemma getMaximumFee_sourced_notes (catalog : Catalog) (code : string) (claim : float)
  (isEmergency : option bool) (feeRule : Rule) (fee : MaximumFee) :
  findFeeRule catalog (Js.toUpperCase code) = Some feeRule ->
  getMaximumFee catalog code claim isEmergency = Some fee ->
  notes fee = Some [Lit fallbackNotes] ->
  description feeRule = fallbackNotes.
Proof.
  unfold getMaximumFee. intros ->.
  destruct (String.eqb (logicType feeRule) "MAX_PERCENTAGE").
  { destruct (asNumber (thresholdValue feeRule)); simpl; [|discriminate].
    intros [= <-]. simpl. now intros [= ->]. }
  destruct (String.eqb (logicType feeRule) "DYNAMIC_CAP").
  { destruct (asCaps (thresholdValue feeRule)); simpl; [|discriminate].
    intros [= <-]. simpl. now intros [= ->]. }
  destruct (String.eqb (logicType feeRule) "SLIDING_SCALE").
  { destruct (asScale (thresholdValue feeRule)); simpl; [|discriminate].
    intros [= <-]. simpl. discriminate. }
  intros [= <-]. simpl. now intros [= ->].
Qed.

(** C8: for a jurisdiction code with no active FEE_CAP rule the fee-cap
    query returns [maxPercentage] 0.33 and [maxAmount] 0.33 times the claim
    amount, with the notes "Standard reasonableness cap (no statutory
    limit)"; for a claim of 100000 that amount is 33000.  A cap that comes
    from a rule carries these notes only if they are the rule's own
    description. *)
Theorem getMaximumFee_fallback (catalog : Catalog) (code : string) (claim : float)
  (isEmergency : option bool) :
  (forall rule, In rule catalog ->
     stateCode rule = Js.toUpperCase code -> category rule = "FEE_CAP" ->
     isActive rule = false) ->
  getMaximumFee catalog code claim isEmergency
  = Some (mkMaximumFee 0.33 (0.33 * claim)%float (Some [Lit fallbackNotes]))
  /\ (0.33 * 100000)%float = 33000%float
  /\ (forall catalog' code' claim' isEmergency' feeRule fee,
        findFeeRule catalog' (Js.toUpperCase code') = Some feeRule ->
        getMaximumFee catalog' code' claim' isEmergency' = Some fee ->
        notes fee = Some [Lit fallbackNotes] ->
        description feeRule = fallbackNotes).
Proof.
  intros H. split; [|split].
  - unfold getMaximumFee. now rewrite (findFeeRule_none _ _ H), (mul_comm claim).
  - reflexivity.
  - exact getMaximumFee_sourced_notes.
Qed.

Ltac no_fee_cap :=
  intros rule Hin; simpl in Hin;
  repeat (destruct Hin as [<- | Hin]; [discriminate|]);
  contradiction.

(** [maxFee("ZZ", 100000, false)] on a catalog with no rule for [ZZ]. *)
Lemma getMaximumFee_fallback_witness :
  (forall rule, In rule sampleCatalog ->
     stateCode rule = Js.toUpperCase "ZZ" -> category rule = "FEE_CAP" ->
     isActive rule = false)
  /\ getMaximumFee sampleCatalog "ZZ" 100000 (Some false)
     = Some (mkMaximumFee 0.33 33000 (Some [Lit fallbackNotes])).
Proof.
  assert (H : forall rule, In rule sampleCatalog ->
                stateCode rule = Js.toUpperCase "ZZ" -> category rule = "FEE_CAP" ->
                isActive rule = false) by no_fee_cap.
  split; [exact H|].
  exact (proj1 (getMaximumFee_fallback sampleCatalog "ZZ" 100000 (Some false) H)).
Defined.

(** C10: when the fee-cap query finds a SLIDING_SCALE rule, [maxPercentage]
    is [(tier1 + tier2) / claimAmount] whatever the claim amount is, zero
    included.  For a claim amount of zero it is never a finite number; it is
    [NaN] when the two tiers sum to zero ([0 / 0]), which they do when the
    first-tier limit is positive and the percentages are finite. *)
Theorem getMaximumFee_slidingScale (catalog : Catalog) (code : string) (claim : float)
  (isEmergency : option bool) (feeRule : Rule) (scale : Scale) :
  findFeeRule catalog (Js.toUpperCase code) = Some feeRule ->
  logicType feeRule = "SLIDING_SCALE" ->
  thresholdValue feeRule = TScale scale ->
  exists fee,
    getMaximumFee catalog code claim isEmergency = Some fee
    /\ maxPercentage fee
       = ((Js.min claim (tier1_limit scale) * tier1_percent scale
           + Js.max 0 (claim - tier1_limit scale) * tier2_percent scale) / claim)%float
    /\ (PrimFloat.is_zero claim = true -> Js.isFinite (maxPercentage fee) = false)
    /\ (PrimFloat.is_zero claim = true ->
        PrimFloat.is_zero
          (Js.min claim (tier1_limit scale) * tier1_percent scale
           + Js.max 0 (claim - tier1_limit scale) * tier2_percent scale) = true ->
        PrimFloat.is_nan (maxPercentage fee) = true)
    /\ (PrimFloat.is_zero claim = true ->
        PrimFloat.ltb 0 (tier1_limit scale) = true ->
        PrimFloat.is_finite (tier1_percent scale) = true ->
        PrimFloat.is_finite (tier2_percent scale) = true ->
        PrimFloat.is_nan (maxPercentage fee) = true).
Proof.
  intros Hfind Hlogic Hpayload.
  unfold getMaximumFee. rewrite Hfind, Hlogic, Hpayload. simpl.
  eexists. split; [reflexivity|]. simpl. split; [reflexivity|].
  split; [|split].
  - intros Hzero. now apply div_zero_not_finite.
  - intros Hzero Hsum. now apply div_zero_zero.
  - intros Hzero HL Hp1 Hp2.
    apply div_zero_zero; [|exact Hzero].
    exact (maxAllowedFee_zero_claim scale claim Hzero HL Hp1 Hp2).
Qed.

(** Delaware's scale and a claim amount of [0]: [maxPercentage] is [NaN]. *)
Lemma getMaximumFee_slidingScale_witness :
  findFeeRule sampleCatalog (Js.toUpperCase "de") = Some delawareRule
  /\ logicType delawareRule = "SLIDING_SCALE"
  /\ thresholdValue delawareRule = TScale delawareScale
  /\ exists fee,
       getMaximumFee sampleCatalog "de" 0 None = Some fee
       /\ Js.isFinite (maxPercentage fee) = false
       /\ PrimFloat.is_nan (maxPercentage fee) = true.
Proof.
  split; [reflexivity|]. split; [reflexivity|]. split; [reflexivity|].
  destruct (getMaximumFee_slidingScale sampleCatalog "de" 0 None delawareRule
              delawareScale eq_refl eq_refl eq_refl) as [fee [H1 [_ [H3 [_ H5]]]]].
  exists fee. split; [exact H1|]. split.
  - apply H3. reflexivity.
  - apply H5; reflexivity.
Defined.

(** ** Unknown logic types *)

(** C9: a rule whose logic type has no case in [evaluateRule] evaluates to
    [{ violated: false }], with no failure, whatever the input and the
    payload; processing it leaves the three lists as they are. *)
Theorem unknownLogicType_never_fires (rule : Rule) (input : ContractValidationInput) :
  Js.arrayIncludes recognized (logicType rule) = false ->
  evaluateRule rule input = Some notViolated
  /\ (forall acc, record rule notViolated acc = acc)
  /\ (forall rest acc,
        processRules input (rule :: rest) acc = processRules input rest acc).
Proof.
  intros H.
  assert (Hev : evaluateRule rule input = Some notViolated).
  { unfold evaluateRule. unfold Js.arrayIncludes, recognized in H. simpl in H.
    rewrite !orb_false_iff in H.
    destruct H as (H1 & H2 & H3 & H4 & H5 & H6 & H7 & H8 & H9 & H10 & H11 & _).
    rewrite H1, H2, H3, H4, H5, H6, H7, H8, H9, H10, H11. reflexivity. }
  split; [exact Hev|]. split; [reflexivity|].
  intros rest acc. simpl. rewrite Hev. reflexivity.
Qed.

(** [FORBIDDEN_SERVICE] is in the schema's enum and has no case in the
    engine. *)
Lemma unknownLogicType_never_fires_witness :
  Js.arrayIncludes recognized (logicType forbiddenServiceRule) = false
  /\ evaluateRule forbiddenServiceRule (emptyInput "NY") = Some notViolated.
Proof.
  split; [reflexivity|].
  exact (proj1 (unknownLogicType_never_fires forbiddenServiceRule (emptyInput "NY")
                  eq_refl)).
Defined.

(** ** The aggregation of [validateContract] *)

(** What one pass of the loop body adds to the lists. *)
Lemma record_spec (rule : Rule) (result : Evaluation) (acc : Lists) :
  record rule result acc
  = mkLists (l_violations acc ++ violationsOf [(rule, result)])
            (l_warnings acc ++ warningsOf [(rule, result)])
            (l_blockedActions acc ++ blockedActionsOf [(rule, result)]).
Proof.
  unfold record, violationsOf, warningsOf, blockedActionsOf,
    isViolation, isWarning, isBlocked.
  destruct acc as [vs ws bs]. simpl.
  destruct (violated result); simpl; [|now rewrite !app_nil_r].
  destruct (severity rule); simpl; now rewrite ?app_nil_r.
Qed.

Lemma violationsOf_cons p results :
  violationsOf (p :: results) = violationsOf [p] ++ violationsOf results.
Proof. unfold violationsOf. simpl. destruct (isViolation p); reflexivity. Qed.

Lemma warningsOf_cons p results :
  warningsOf (p :: results) = warningsOf [p] ++ warningsOf results.
Proof. unfold warningsOf. simpl. destruct (isWarning p); reflexivity. Qed.

Lemma blockedActionsOf_cons p results :
  blockedActionsOf (p :: results) = blockedActionsOf [p] ++ blockedActionsOf results.
Proof. unfold blockedActionsOf. simpl. destruct (isBlocked p); reflexivity. Qed.

(** The loop, from any state of the lists: by induction on the rules. *)
Lemma processRules_spec (input : ContractValidationInput) (rules : list Rule) :
  forall acc,
    processRules input rules acc
    = match evaluateAll input rules with
      | Some results =>
          Some (mkLists (l_violations acc ++ violationsOf results)
                        (l_warnings acc ++ warningsOf results)
                        (l_blockedActions acc ++ blockedActionsOf results))
      | None => None
      end.
Proof.
  induction rules as [|rule rest IH]; intros acc; simpl.
  - destruct acc. unfold ret. simpl. now rewrite !app_nil_r.
  - destruct (evaluateRule rule input) as [result|]; simpl; [|reflexivity].
    rewrite IH. destruct (evaluateAll input rest) as [results|]; simpl; [|reflexivity].
    rewrite record_spec. simpl.
    rewrite (violationsOf_cons (rule, result) results),
      (warningsOf_cons (rule, result) results),
      (blockedActionsOf_cons (rule, result) results).
    now rewrite !app_assoc.
Qed.

(** C2: [validateContract] evaluates the applicable rules in catalog order;
    [violations] holds, in that order, the fired rules of severity
    BLOCK_ACTION or WARN_BLOCK, [blockedActions] the categories of the fired
    rules of severity BLOCK_ACTION, [warnings] the fired rules of severity
    WARN_CONTINUE or INFO_ONLY, and [isValid] is [violations.length === 0]. *)
Theorem validateContract_aggregates (catalog : Catalog) (input : ContractValidationInput) :
  validateContract catalog input
  = match evaluateAll input (findRules catalog (Js.toUpperCase (inStateCode input))) with
    | Some results =>
        Some (mkResult (Nat.eqb (List.length (violationsOf results)) 0)
                (map (fun p => toViolation (fst p) (snd p))
                   (filter (fun p => violated (snd p)
                                     && (Severity_eqb (severity (fst p)) BLOCK_ACTION
                                         || Severity_eqb (severity (fst p)) WARN_BLOCK))
                      results))
                (map (fun p => toWarning (fst p) (snd p))
                   (filter (fun p => violated (snd p)
                                     && (Severity_eqb (severity (fst p)) WARN_CONTINUE
                                         || Severity_eqb (severity (fst p)) INFO_ONLY))
                      results))
                (map (fun p => category (fst p))
                   (filter (fun p => violated (snd p)
                                     && Severity_eqb (severity (fst p)) BLOCK_ACTION)
                      results)))
    | None => None
    end.
Proof.
  unfold validateContract. rewrite processRules_spec.
  destruct (evaluateAll input _) as [results|]; reflexivity.
Qed.

(** A rule whose payload has the shape of its logic type evaluates. *)
Lemma evaluateRule_wellShaped (rule : Rule) (input : ContractValidationInput) :
  wellShaped rule = true -> exists result, evaluateRule rule input = Some result.
Proof.
  unfold wellShaped, evaluateRule.
  destruct (String.eqb (logicType rule) "FORBIDDEN_KEYWORD").
  { unfold evaluateForbiddenKeyword.
    destruct (thresholdValue rule); try discriminate. intros _. eexists; reflexivity. }
  destruct (String.eqb (logicType rule) "FORBIDDEN_ACTION").
  { intros _. eexists; reflexivity. }
  destruct (String.eqb (logicType rule) "FORBIDDEN_FEE_TYPE").
  { unfold evaluateForbiddenFeeType.
    destruct (thresholdValue rule); try discriminate. intros _. eexists; reflexivity. }
  destruct (String.eqb (logicType rule) "MAX_PERCENTAGE").
  { unfold evaluateMaxPercentage.
    destruct (thresholdValue rule); try discriminate. intros _.
    destruct (feePercentage input) as [fee|]; [|eexists; reflexivity].
    destruct (Js.falsyNumber fee); eexists; reflexivity. }
  destruct (String.eqb (logicType rule) "DYNAMIC_CAP").
  { unfold evaluateDynamicCap.
    destruct (thresholdValue rule); try discriminate. intros _.
    destruct (feePercentage input) as [fee|]; [|eexists; reflexivity].
    destruct (Js.falsyNumber fee); eexists; reflexivity. }
  destruct (String.eqb (logicType rule) "SLIDING_SCALE").
  { unfold evaluateSlidingScale.
    destruct (thresholdValue rule); try discriminate. intros _.
    destruct (feeAmount input) as [fee|]; [|eexists; reflexivity].
    destruct (claimAmount input) as [claim|]; [|eexists; reflexivity].
    destruct (Js.falsyNumber fee || Js.falsyNumber claim); eexists; reflexivity. }
  destruct (String.eqb (logicType rule) "TIME_WINDOW").
  { unfold evaluateTimeWindow.
    destruct (thresholdValue rule); try discriminate. intros _.
    destruct (actionType input) as [[| | |]|]; try (eexists; reflexivity).
    destruct (solicitationTime input); eexists; reflexivity. }
  destruct (String.eqb (logicType rule) "TIME_BASED_RESTRICTION").
  { unfold evaluateTimeBasedRestriction.
    destruct (thresholdValue rule); try discriminate. intros _.
    destruct (negb (Js.truthyBool (isDeclaredDisaster input))
              || negb (isAction (actionType input) "SOLICITATION"));
      eexists; reflexivity. }
  destruct (String.eqb (logicType rule) "LANGUAGE_REQUIREMENT").
  { unfold evaluateLanguageRequirement.
    destruct (thresholdValue rule); try discriminate. intros _. simpl.
    destruct (contractLanguage input) as [lang|]; [|eexists; reflexivity].
    destruct (String.eqb lang ""); eexists; reflexivity. }
  destruct (String.eqb (logicType rule) "REQUIRED_DISCLOSURE").
  { intros _. eexists; reflexivity. }
  destruct (String.eqb (logicType rule) "DYNAMIC_RESCISSION").
  { unfold evaluateDynamicRescission.
    destruct (thresholdValue rule); try discriminate. intros _. eexists; reflexivity. }
  intros _. eexists; reflexivity.
Qed.

Lemma evaluateAll_wellShaped (input : ContractValidationInput) (rules : list Rule) :
  forallb wellShaped rules = true -> exists results, evaluateAll input rules = Some results.
Proof.
  induction rules as [|rule rest IH]; simpl; intros H.
  - eexists; reflexivity.
  - apply andb_prop in H. destruct H as [H1 H2].
    destruct (evaluateRule_wellShaped rule input H1) as [result ->].
    destruct (IH H2) as [results ->]. eexists; reflexivity.
Qed.

(** On a catalog of such rules [validateContract] returns a verdict. *)
Lemma validateContract_returns (catalog : Catalog) (input : ContractValidationInput) :
  forallb wellShaped catalog = true ->
  exists verdict, validateContract catalog input = Some verdict.
Proof.
  intros H. unfold validateContract. rewrite processRules_spec.
  destruct (evaluateAll_wellShaped input
              (findRules catalog (Js.toUpperCase (inStateCode input)))) as [results ->].
  - rewrite forallb_forall in *. intros rule Hin. apply H.
    unfold findRules in Hin. apply filter_In in Hin. tauto.
  - eexists; reflexivity.
Qed.

(** ** The partition of the fired rules *)

(** No rule is both a violation and a warning. *)
Lemma violation_warning_disjoint (p : Rule * Evaluation) :
  isViolation p && isWarning p = false.
Proof.
  unfold isViolation, isWarning.
  destruct (violated (snd p)), (severity (fst p)); reflexivity.
Qed.

(** A fired rule is a violation, a warning, or dropped: exactly one of the
    three. *)
Lemma fired_classes (p : Rule * Evaluation) :
  violated (snd p) = true ->
  (if isViolation p then 1 else 0) + (if isWarning p then 1 else 0)
  + (if isDropped p then 1 else 0) = 1.
Proof.
  unfold isViolation, isWarning, isDropped. intros ->.
  destruct (severity (fst p)); reflexivity.
Qed.

(** The two lists hold every fired rule but those of severity
    WARNING_ONLY. *)
Lemma fired_count (results : list (Rule * Evaluation)) :
  List.length (violationsOf results) + List.length (warningsOf results)
  + List.length (filter isDropped results)
  = List.length (filter (fun p => violated (snd p)) results).
Proof.
  unfold violationsOf, warningsOf. rewrite !length_map.
  induction results as [|p results IH]; [reflexivity|].
  simpl. destruct (violated (snd p)) eqn:E.
  - pose proof (fired_classes p E) as H.
    destruct (isViolation p), (isWarning p), (isDropped p); simpl in *; lia.
  - unfold isViolation, isWarning, isDropped. rewrite E. simpl. exact IH.
Qed.

(** C1, on the failing input: a total ban of severity WARNING_ONLY fires on
    any input, and [validateContract] returns it in neither [violations] nor
    [warnings], with [isValid] true. *)
Theorem warningOnly_rule_dropped :
  (exists result, evaluateRule warningOnlyBan (emptyInput "AL") = Some result
                  /\ violated result = true)
  /\ validateContract [warningOnlyBan] (emptyInput "AL")
     = Some (mkResult true [] [] []).
Proof.
  split; [eexists; split; reflexivity | reflexivity].
Qed.

(** ** The engine on the specification's scenarios *)

Example total_ban_blocks :
  validateContract [alabamaBan] (contractInput "al")
  = Some (mkResult false
            [mkViolation "r1" "AL" "LICENSE_RESTRICTION" BLOCK_ACTION "" None None
               (Some [Lit "Refer client to licensed attorney in "; Lit "AL";
                      Lit ". Public adjusting is illegal in this state."])]
            [] ["LICENSE_RESTRICTION"]).
Proof. reflexivity. Qed.

Example other_state_unaffected :
  validateContract [alabamaBan] (contractInput "GA") = Some (mkResult true [] [] []).
Proof. reflexivity. Qed.

Example solicitation_at_21 :
  exists result, evaluateRule floridaWindow (solicitationAt 21) = Some result
                 /\ violated result = true.
Proof. eexists; split; reflexivity. Qed.

Example solicitation_at_8 :
  evaluateRule floridaWindow (solicitationAt 8) = Some notViolated.
Proof. reflexivity. Qed.

Example parseInt_hex : Js.parseInt "  -0x1F" = Some (-31)%Z.
Proof. reflexivity. Qed.

Example parseInt_nan : Js.parseInt "am" = None.
Proof. reflexivity. Qed.

Example replace_first : Js.replace "a_b_c" "_" "" = "ab_c".
Proof. reflexivity. Qed.

Example public_adjusting_banned :
  isPublicAdjustingAllowed [alabamaBan] "al" = mkAllowed false (Some "").
Proof. reflexivity. Qed.

Example min_of_zeros : PrimFloat.get_sign (Js.min 0 (-0)) = true.
Proof. reflexivity. Qed.

Example max_of_zeros : PrimFloat.get_sign (Js.max (-0) 0) = false.
Proof. reflexivity. Qed.

Example min_with_nan : PrimFloat.is_nan (Js.min 1 PrimFloat.nan) = true.
Proof. reflexivity. Qed.

Example delaware_maximum : maxAllowedFee delawareScale 100000 = 9625%float.
Proof. reflexivity. Qed.

(** * Further properties of the engine *)

(** ** The verdict and the catalog *)

Lemma findRules_applies (catalog : Catalog) (code : string) :
  findRules catalog code = filter (applies code) catalog.
Proof. reflexivity. Qed.

Lemma findRules_In (catalog : Catalog) (code : string) (rule : Rule) :
  In rule (findRules catalog code) <-> In rule catalog /\ applies code rule = true.
Proof. rewrite findRules_applies. apply filter_In. Qed.

Lemma findRules_app (a b : Catalog) (code : string) :
  findRules (a ++ b) code = findRules a code ++ findRules b code.
Proof. rewrite !findRules_applies. apply filter_app. Qed.

Lemma evaluateAll_app (input : ContractValidationInput) (a b : list Rule) :
  evaluateAll input (a ++ b)
  = match evaluateAll input a, evaluateAll input b with
    | Some ra, Some rb => Some (ra ++ rb)
    | _, _ => None
    end.
Proof.
  induction a as [|rule a IH]; simpl.
  - destruct (evaluateAll input b); reflexivity.
  - destruct (evaluateRule rule input) as [result|]; simpl; [|reflexivity].
    rewrite IH.
    destruct (evaluateAll input a), (evaluateAll input b); reflexivity.
Qed.

(** The evaluations pair each rule with its own evaluation. *)
Lemma evaluateAll_In (input : ContractValidationInput) (rules : list Rule) :
  forall results, evaluateAll input rules = Some results ->
  forall rule result,
    In (rule, result) results
    <-> In rule rules /\ evaluateRule rule input = Some result.
Proof.
  induction rules as [|r rest IH]; simpl; intros results H rule result.
  - injection H as <-. simpl. tauto.
  - destruct (evaluateRule r input) as [ev|] eqn:Er; simpl in H; [|discriminate].
    destruct (evaluateAll input rest) as [evs|]; simpl in H; [|discriminate].
    injection H as <-. simpl. rewrite (IH evs eq_refl). split.
    + intros [E | [H1 H2]].
      * injection E as <- <-. auto.
      * auto.
    + intros [[<- | H1] H2].
      * left. rewrite Er in H2. now injection H2 as <-.
      * right. auto.
Qed.

(** The verdict, from the evaluations of the applicable rules. *)
Lemma validateContract_results (catalog : Catalog) (input : ContractValidationInput)
  (verdict : ComplianceValidationResult) :
  validateContract catalog input = Some verdict ->
  exists results,
    evaluateAll input (findRules catalog (Js.toUpperCase (inStateCode input)))
    = Some results
    /\ verdict = mkResult (Nat.eqb (List.length (violationsOf results)) 0)
                   (violationsOf results) (warningsOf results)
                   (blockedActionsOf results).
Proof.
  unfold validateContract. rewrite processRules_spec.
  destruct (evaluateAll input _) as [results|]; simpl; [|discriminate].
  intros [= <-]. exists results. split; reflexivity.
Qed.

Lemma violationsOf_app a b : violationsOf (a ++ b) = violationsOf a ++ violationsOf b.
Proof. unfold violationsOf. now rewrite filter_app, map_app. Qed.

Lemma warningsOf_app a b : warningsOf (a ++ b) = warningsOf a ++ warningsOf b.
Proof. unfold warningsOf. now rewrite filter_app, map_app. Qed.

Lemma blockedActionsOf_app a b :
  blockedActionsOf (a ++ b) = blockedActionsOf a ++ blockedActionsOf b.
Proof. unfold blockedActionsOf. now rewrite filter_app, map_app. Qed.

Lemma length_app_zero {A : Type} (a b : list A) :
  Nat.eqb (List.length (a ++ b)) 0
  = Nat.eqb (List.length a) 0 && Nat.eqb (List.length b) 0.
Proof. destruct a, b; reflexivity. Qed.

(** X1: the verdict of two catalogs put end to end is the two verdicts put
    end to end: the lists are concatenated in order and the result is valid
    when both are; it fails when either validation does. *)
Theorem validateContract_app (a b : Catalog) (input : ContractValidationInput) :
  validateContract (a ++ b) input
  = match validateContract a input, validateContract b input with
    | Some va, Some vb => Some (appendResults va vb)
    | _, _ => None
    end.
Proof.
  unfold validateContract. rewrite !processRules_spec, findRules_app, evaluateAll_app.
  destruct (evaluateAll input (findRules a _)) as [ra|]; simpl; [|reflexivity].
  destruct (evaluateAll input (findRules b _)) as [rb|]; simpl; [|reflexivity].
  unfold appendResults. simpl.
  now rewrite violationsOf_app, warningsOf_app, blockedActionsOf_app, length_app_zero.
Qed.

(** X2: a rule that is inactive, or whose state code is neither the
    input's (in upper case) nor DEFAULT_GREEN, has no effect on the verdict,
    wherever it stands in the catalog and whatever its payload. *)
Theorem validateContract_skips (a b : Catalog) (rule : Rule)
  (input : ContractValidationInput) :
  applies (Js.toUpperCase (inStateCode input)) rule = false ->
  validateContract (a ++ rule :: b) input = validateContract (a ++ b) input.
Proof.
  intros H. unfold validateContract.
  rewrite !findRules_app. rewrite (findRules_applies (rule :: b)). simpl.
  rewrite H. reflexivity.
Qed.

Lemma validateContract_skips_witness :
  applies (Js.toUpperCase (inStateCode (contractInput "ga"))) alabamaBan = false
  /\ validateContract ([floridaWindow] ++ alabamaBan :: [floridaRule]) (contractInput "ga")
     = validateContract ([floridaWindow] ++ [floridaRule]) (contractInput "ga").
Proof.
  split; [reflexivity|].
  exact (validateContract_skips [floridaWindow] [floridaRule] alabamaBan
           (contractInput "ga") eq_refl).
Defined.

(** ** What the verdict holds *)

Lemma isBlocked_isViolation (p : Rule * Evaluation) :
  isBlocked p = true -> isViolation p = true.
Proof.
  unfold isBlocked, isViolation.
  destruct (violated (snd p)); simpl; [|discriminate]. now intros ->.
Qed.

(** X3: in a verdict, every entry of [blockedActions] is the category of an
    entry of [violations] whose severity is BLOCK_ACTION, and
    [blockedActions] is never longer than [violations]. *)
Theorem blockedActions_in_violations (catalog : Catalog)
  (input : ContractValidationInput) (verdict : ComplianceValidationResult) :
  validateContract catalog input = Some verdict ->
  (forall c, In c (blockedActions verdict) ->
     exists v, In v (violations verdict)
               /\ v_category v = c /\ v_severity v = BLOCK_ACTION)
  /\ List.length (blockedActions verdict) <= List.length (violations verdict).
Proof.
  intros H. destruct (validateContract_results _ _ _ H) as [results [_ ->]].
  simpl. split.
  - intros c Hc. unfold blockedActionsOf in Hc.
    apply in_map_iff in Hc. destruct Hc as [p [<- Hp]].
    apply filter_In in Hp. destruct Hp as [Hin Hb].
    exists (toViolation (fst p) (snd p)). split; [|split].
    + unfold violationsOf. apply in_map_iff. exists p. split; [reflexivity|].
      apply filter_In. split; [exact Hin | now apply isBlocked_isViolation].
    + reflexivity.
    + simpl. unfold isBlocked in Hb. apply andb_prop in Hb. destruct Hb as [_ Hb].
      destruct (severity (fst p)); try discriminate. reflexivity.
  - unfold blockedActionsOf, violationsOf. rewrite !length_map.
    clear H. induction results as [|p results IH]; simpl; [lia|].
    destruct (isBlocked p) eqn:Eb.
    + rewrite (isBlocked_isViolation p Eb). simpl. lia.
    + destruct (isViolation p); simpl; lia.
Qed.

Lemma blockedActions_in_violations_witness :
  validateContract [alabamaBan; floridaWindow] (contractInput "al")
  = Some (mkResult false
            [mkViolation "r1" "AL" "LICENSE_RESTRICTION" BLOCK_ACTION "" None None
               (Some [Lit "Refer client to licensed attorney in "; Lit "AL";
                      Lit ". Public adjusting is illegal in this state."])]
            [] ["LICENSE_RESTRICTION"])
  /\ exists v, v_category v = "LICENSE_RESTRICTION" /\ v_severity v = BLOCK_ACTION.
Proof.
  split; [reflexivity|].
  destruct (proj1 (blockedActions_in_violations [alabamaBan; floridaWindow]
                     (contractInput "al") _ eq_refl)
              "LICENSE_RESTRICTION" (or_introl eq_refl)) as [v [_ Hv]].
  exists v. exact Hv.
Defined.

Lemma fired_blocking_rule_in_verdict (catalog : Catalog)
  (input : ContractValidationInput) (verdict : ComplianceValidationResult)
  (rule : Rule) (result : Evaluation) :
  validateContract catalog input = Some verdict ->
  In rule catalog ->
  applies (Js.toUpperCase (inStateCode input)) rule = true ->
  evaluateRule rule input = Some result ->
  violated result = true ->
  blocking (severity rule) = true ->
  isValid verdict = false
  /\ In (toViolation rule result) (violations verdict)
  /\ (severity rule = BLOCK_ACTION -> In (category rule) (blockedActions verdict)).
Proof.
  intros H Hin Happ Hev Hfired Hsev.
  destruct (validateContract_results _ _ _ H) as [results [Hres ->]]. simpl.
  assert (Hp : In (rule, result) results).
  { apply (evaluateAll_In _ _ _ Hres). split; [|exact Hev].
    apply findRules_In. auto. }
  assert (Hv : In (toViolation rule result) (violationsOf results)).
  { unfold violationsOf. apply in_map_iff. exists (rule, result).
    split; [reflexivity|]. apply filter_In. split; [exact Hp|].
    unfold isViolation. simpl. rewrite Hfired. exact Hsev. }
  split; [|split].
  - destruct (violationsOf results); [contradiction | reflexivity].
  - exact Hv.
  - intros Hblock. unfold blockedActionsOf. apply in_map_iff.
    exists (rule, result). split; [reflexivity|]. apply filter_In.
    split; [exact Hp|]. unfold isBlocked. simpl. now rewrite Hfired, Hblock.
Qed.

(** X4: no shadowing and no omission of a blocking rule.  An active rule of
    the input's state or of DEFAULT_GREEN that fires with severity
    BLOCK_ACTION or WARN_BLOCK is in [violations] and makes the verdict
    invalid; with BLOCK_ACTION its category is in [blockedActions]. *)
Theorem fired_blocking_rule_reported (catalog : Catalog)
  (input : ContractValidationInput) (verdict : ComplianceValidationResult)
  (rule : Rule) (result : Evaluation) :
  validateContract catalog input = Some verdict ->
  In rule catalog ->
  applies (Js.toUpperCase (inStateCode input)) rule = true ->
  evaluateRule rule input = Some result ->
  violated result = true ->
  blocking (severity rule) = true ->
  isValid verdict = false
  /\ In (toViolation rule result) (violations verdict)
  /\ (severity rule = BLOCK_ACTION -> In (category rule) (blockedActions verdict)).
Proof. exact (fired_blocking_rule_in_verdict catalog input verdict rule result). Qed.

(** A DEFAULT_GREEN ban blocks a contract in any state. *)
Lemma fired_blocking_rule_reported_witness :
  (exists verdict,
     validateContract
       [floridaRule; ruleOf "DEFAULT_GREEN" "SCOPE_OF_PRACTICE" "FORBIDDEN_ACTION"
                       (TText "") BLOCK_ACTION]
       (contractInput "fl") = Some verdict
     /\ isValid verdict = false
     /\ In "SCOPE_OF_PRACTICE" (blockedActions verdict)).
Proof.
  eexists. split; [reflexivity|].
  destruct (fired_blocking_rule_reported
              [floridaRule; ruleOf "DEFAULT_GREEN" "SCOPE_OF_PRACTICE" "FORBIDDEN_ACTION"
                              (TText "") BLOCK_ACTION]
              (contractInput "fl") _
              (ruleOf "DEFAULT_GREEN" "SCOPE_OF_PRACTICE" "FORBIDDEN_ACTION"
                 (TText "") BLOCK_ACTION)
              _ eq_refl (or_intror (or_introl eq_refl)) eq_refl eq_refl eq_refl eq_refl)
    as [H1 [_ H3]].
  split; [exact H1 | exact (H3 eq_refl)].
Defined.

(** X5: a verdict is valid exactly when no active rule of the input's state
    or of DEFAULT_GREEN fired with severity BLOCK_ACTION or WARN_BLOCK;
    rules that fire with any other severity leave it valid. *)
Theorem isValid_iff (catalog : Catalog) (input : ContractValidationInput)
  (verdict : ComplianceValidationResult) :
  validateContract catalog input = Some verdict ->
  (isValid verdict = true
   <-> forall rule result,
         In rule catalog ->
         applies (Js.toUpperCase (inStateCode input)) rule = true ->
         evaluateRule rule input = Some result ->
         violated result = true ->
         blocking (severity rule) = false).
Proof.
  intros H. split.
  - intros Hvalid rule result Hin Happ Hev Hfired.
    destruct (blocking (severity rule)) eqn:Hsev; [|reflexivity].
    destruct (fired_blocking_rule_in_verdict _ _ _ _ _ H Hin Happ Hev Hfired Hsev)
      as [Hinvalid _].
    congruence.
  - intros Hnone.
    destruct (validateContract_results _ _ _ H) as [results [Hres ->]]. simpl.
    destruct (violationsOf results) as [|v vs] eqn:Ev; [reflexivity|]. exfalso.
    assert (Hv : In v (violationsOf results)) by (rewrite Ev; now left).
    unfold violationsOf in Hv. apply in_map_iff in Hv.
    destruct Hv as [[rule result] [_ Hp]]. apply filter_In in Hp.
    destruct Hp as [Hp Hviol].
    apply (evaluateAll_In _ _ _ Hres) in Hp. destruct Hp as [Hin Hev].
    apply findRules_In in Hin. destruct Hin as [Hin Happ].
    unfold isViolation in Hviol. simpl in Hviol.
    apply andb_prop in Hviol. destruct Hviol as [Hfired Hsev].
    specialize (Hnone rule result Hin Happ Hev Hfired).
    unfold blocking in Hnone. congruence.
Qed.

(** A fee over Florida's cap, reported only as a warning, leaves the
    verdict valid. *)
Lemma isValid_iff_witness :
  validateContract
    [ruleOf "FL" "FEE_CAP" "DYNAMIC_CAP" (TCaps floridaCaps) WARN_CONTINUE]
    floridaInput
  = Some (mkResult true []
            [mkWarning "r1" "FL" "FEE_CAP" ""
               (Some [Lit "Reduce fee to "; Fixed (0.10 * 100)%float 1; Lit "% (";
                      Lit "emergency"; Lit " cap for "; Lit "FL"; Lit ")."])]
            [])
  /\ forall rule result,
       In rule [ruleOf "FL" "FEE_CAP" "DYNAMIC_CAP" (TCaps floridaCaps) WARN_CONTINUE] ->
       applies (Js.toUpperCase (inStateCode floridaInput)) rule = true ->
       evaluateRule rule floridaInput = Some result ->
       violated result = true ->
       blocking (severity rule) = false.
Proof.
  split; [reflexivity|].
  exact (proj1 (isValid_iff
                  [ruleOf "FL" "FEE_CAP" "DYNAMIC_CAP" (TCaps floridaCaps) WARN_CONTINUE]
                  floridaInput _ eq_refl) eq_refl).
Defined.

(** ** The letter case of the state code *)

Lemma upperAscii_idempotent (c : ascii) :
  Js.upperAscii (Js.upperAscii c) = Js.upperAscii c.
Proof. destruct c as [[] [] [] [] [] [] [] []]; reflexivity. Qed.

Lemma toUpperCase_idempotent (s : string) :
  Js.toUpperCase (Js.toUpperCase s) = Js.toUpperCase s.
Proof.
  induction s as [|c s IH]; simpl; [reflexivity|].
  unfold Js.toUpperCase in *. simpl. now rewrite upperAscii_idempotent, IH.
Qed.

(** No handler reads the input's state code. *)
Lemma evaluateRule_withStateCode (code : string) (rule : Rule)
  (input : ContractValidationInput) :
  evaluateRule rule (withStateCode code input) = evaluateRule rule input.
Proof. reflexivity. Qed.

Lemma processRules_withStateCode (code : string) (input : ContractValidationInput)
  (rules : list Rule) :
  forall acc,
    processRules (withStateCode code input) rules acc = processRules input rules acc.
Proof.
  induction rules as [|rule rest IH]; intros acc; simpl; [reflexivity|].
  rewrite evaluateRule_withStateCode.
  destruct (evaluateRule rule input); simpl; [apply IH | reflexivity].
Qed.

(** X6: the three entry points read the state code in upper case only: two
    state codes that differ in letter case alone give the same verdict, the
    same maximum fee and the same eligibility answer. *)
Theorem stateCode_case_insensitive (catalog : Catalog) (code code' : string) :
  Js.toUpperCase code' = Js.toUpperCase code ->
  (forall input,
     inStateCode input = code ->
     validateContract catalog (withStateCode code' input)
     = validateContract catalog input)
  /\ (forall claim isEmergency,
        getMaximumFee catalog code' claim isEmergency
        = getMaximumFee catalog code claim isEmergency)
  /\ isPublicAdjustingAllowed catalog code' = isPublicAdjustingAllowed catalog code.
Proof.
  intros H. split; [|split].
  - intros input <-. unfold validateContract. simpl inStateCode.
    rewrite H, processRules_withStateCode. reflexivity.
  - intros claim isEmergency. unfold getMaximumFee. now rewrite H.
  - unfold isPublicAdjustingAllowed. now rewrite H.
Qed.

Lemma stateCode_case_insensitive_witness :
  Js.toUpperCase "Fl" = Js.toUpperCase "fL"
  /\ getMaximumFee sampleCatalog "Fl" 1000 None = getMaximumFee sampleCatalog "fL" 1000 None.
Proof.
  split; [reflexivity|].
  exact (proj1 (proj2 (stateCode_case_insensitive sampleCatalog "fL" "Fl" eq_refl))
           1000%float None).
Defined.

(** ** FORBIDDEN_KEYWORD *)

Lemma evaluateRule_FORBIDDEN_KEYWORD rule input :
  logicType rule = "FORBIDDEN_KEYWORD" ->
  evaluateRule rule input = evaluateForbiddenKeyword rule input.
Proof. intros H. unfold evaluateRule. rewrite H. reflexivity. Qed.

Lemma isAction_spec (a : option ActionType) (keyword : string) :
  isAction a keyword = true <-> exists x, a = Some x /\ ActionType_name x = keyword.
Proof.
  unfold isAction. destruct a as [x|].
  - rewrite String.eqb_eq. split.
    + intros H. now exists x.
    + intros [y [[= <-] H]]. exact H.
  - split; [discriminate | intros [y [H _]]; discriminate].
Qed.

Lemma residential_spec (c : option ClaimType) :
  isClaim c "RESIDENTIAL" || isClaim c "PERSONAL_LINES" = true
  <-> c = Some RESIDENTIAL \/ c = Some PERSONAL_LINES.
Proof.
  destruct c as [[]|]; simpl; split; intros H; auto; try discriminate;
    destruct H; discriminate.
Qed.

Lemma percentage_spec (f : option FeeType) :
  isFee f "PERCENTAGE" || isFee f "CONTINGENCY" = true
  <-> f = Some PERCENTAGE \/ f = Some CONTINGENCY.
Proof.
  destruct f as [[]|]; simpl; split; intros H; auto; try discriminate;
    destruct H; discriminate.
Qed.

Ltac keyword_case k c :=
  destruct (String.eqb_spec k c) as [->|?]; simpl.

(** What one keyword matches. *)
Lemma keywordMatches_spec (input : ContractValidationInput) (k : string) :
  keywordMatches input k = true
  <-> (exists a, actionType input = Some a /\ ActionType_name a = k)
      \/ ((k = "RESIDENTIAL" \/ k = "HOMEOWNER" \/ k = "PERSONAL_LINES")
          /\ (claimType input = Some RESIDENTIAL \/ claimType input = Some PERSONAL_LINES))
      \/ ((k = "PERCENTAGE" \/ k = "CONTINGENCY")
          /\ (feeType input = Some PERCENTAGE \/ feeType input = Some CONTINGENCY)).
Proof.
  assert (Hname : forall a, ActionType_name a = "CONTRACT" \/ ActionType_name a = "SOLICITATION"
                            \/ ActionType_name a = "NEGOTIATION"
                            \/ ActionType_name a = "REPRESENTATION")
    by (intros []; simpl; auto).
  unfold keywordMatches, Js.arrayIncludes. simpl existsb.
  keyword_case k "CONTRACT".
  { rewrite isAction_spec. intuition discriminate. }
  keyword_case k "SOLICITATION".
  { rewrite isAction_spec. intuition discriminate. }
  keyword_case k "NEGOTIATION".
  { rewrite isAction_spec. intuition discriminate. }
  keyword_case k "REPRESENTATION".
  { rewrite isAction_spec. intuition discriminate. }
  assert (Hno : ~ exists a, actionType input = Some a /\ ActionType_name a = k).
  { intros [a [_ Ha]]. destruct (Hname a) as [E | [E | [E | E]]]; congruence. }
  keyword_case k "RESIDENTIAL".
  { rewrite residential_spec. intuition discriminate. }
  keyword_case k "HOMEOWNER".
  { rewrite residential_spec. intuition discriminate. }
  keyword_case k "PERSONAL_LINES".
  { rewrite residential_spec. intuition discriminate. }
  keyword_case k "PERCENTAGE".
  { rewrite percentage_spec. intuition discriminate. }
  keyword_case k "CONTINGENCY".
  { rewrite percentage_spec. intuition discriminate. }
  intuition discriminate.
Qed.

(** X7: a FORBIDDEN_KEYWORD rule fires exactly when its list holds the
    input's action type, or holds one of RESIDENTIAL, HOMEOWNER,
    PERSONAL_LINES while the claim type is residential or personal lines,
    or holds one of PERCENTAGE, CONTINGENCY while the fee type is percentage
    or contingency.  Every other keyword matches nothing, and absent fields
    match nothing. *)
Theorem forbiddenKeyword_fires (rule : Rule) (input : ContractValidationInput)
  (keywords : list string) :
  logicType rule = "FORBIDDEN_KEYWORD" ->
  thresholdValue rule = TStrings keywords ->
  exists result,
    evaluateRule rule input = Some result
    /\ (violated result = true
        <-> (exists a, actionType input = Some a /\ In (ActionType_name a) keywords)
            \/ ((In "RESIDENTIAL" keywords \/ In "HOMEOWNER" keywords
                 \/ In "PERSONAL_LINES" keywords)
                /\ (claimType input = Some RESIDENTIAL
                    \/ claimType input = Some PERSONAL_LINES))
            \/ ((In "PERCENTAGE" keywords \/ In "CONTINGENCY" keywords)
                /\ (feeType input = Some PERCENTAGE
                    \/ feeType input = Some CONTINGENCY))).
Proof.
  intros Hlogic Hpayload.
  rewrite (evaluateRule_FORBIDDEN_KEYWORD rule input Hlogic).
  unfold evaluateForbiddenKeyword. rewrite Hpayload. simpl.
  eexists. split; [reflexivity|]. simpl. rewrite existsb_exists. split.
  - intros [k [Hin Hk]]. apply keywordMatches_spec in Hk.
    destruct Hk as [[a [Ha <-]] | [[Hk Hc] | [Hk Hf]]].
    + left. now exists a.
    + right. left. split; [|exact Hc].
      destruct Hk as [-> | [-> | ->]]; auto.
    + right. right. split; [|exact Hf].
      destruct Hk as [-> | ->]; auto.
  - intros [[a [Ha Hin]] | [[Hk Hc] | [Hk Hf]]].
    + exists (ActionType_name a). split; [exact Hin|].
      apply keywordMatches_spec. left. now exists a.
    + destruct Hk as [Hk | [Hk | Hk]]; eexists; (split; [exact Hk|]);
        apply keywordMatches_spec; right; left; auto.
    + destruct Hk as [Hk | Hk]; eexists; (split; [exact Hk|]);
        apply keywordMatches_spec; right; right; auto.
Qed.

(** Kansas bans residential claims: a personal-lines claim fires. *)
Lemma forbiddenKeyword_fires_witness :
  logicType (ruleOf "KS" "LICENSE_RESTRICTION" "FORBIDDEN_KEYWORD"
               (TStrings ["RESIDENTIAL"]) BLOCK_ACTION) = "FORBIDDEN_KEYWORD"
  /\ exists result,
       evaluateRule
         (ruleOf "KS" "LICENSE_RESTRICTION" "FORBIDDEN_KEYWORD"
            (TStrings ["RESIDENTIAL"]) BLOCK_ACTION)
         (mkInput "KS" (Some PERSONAL_LINES) None None None None None None None None None)
       = Some result
       /\ violated result = true.
Proof.
  split; [reflexivity|].
  destruct (forbiddenKeyword_fires
              (ruleOf "KS" "LICENSE_RESTRICTION" "FORBIDDEN_KEYWORD"
                 (TStrings ["RESIDENTIAL"]) BLOCK_ACTION)
              (mkInput "KS" (Some PERSONAL_LINES) None None None None None None None
                 None None)
              ["RESIDENTIAL"] eq_refl eq_refl) as [result [H1 H2]].
  exists result. split; [exact H1|]. apply H2. right. left. simpl. auto.
Defined.

(** ** Rules that do not fire *)

(** A rule whose evaluation does not fire can be taken out of the catalog. *)
Lemma validateContract_drop_unfired (a b : Catalog) (rule : Rule)
  (input : ContractValidationInput) (result : Evaluation) :
  evaluateRule rule input = Some result ->
  violated result = false ->
  validateContract (a ++ rule :: b) input = validateContract (a ++ b) input.
Proof.
  intros Hev Hnot. unfold validateContract.
  rewrite !findRules_app, (findRules_applies (rule :: b)). simpl.
  destruct (applies (Js.toUpperCase (inStateCode input)) rule); [|reflexivity].
  rewrite <- findRules_applies, !processRules_spec, !evaluateAll_app. simpl.
  rewrite Hev. simpl.
  destruct (evaluateAll input (findRules a _)) as [ra|]; [|reflexivity].
  destruct (evaluateAll input (findRules b _)) as [rb|]; simpl; [|reflexivity].
  rewrite !violationsOf_app, !warningsOf_app, !blockedActionsOf_app.
  rewrite (violationsOf_cons (rule, result) rb), (warningsOf_cons (rule, result) rb),
    (blockedActionsOf_cons (rule, result) rb).
  unfold violationsOf at 2 5, warningsOf at 2, blockedActionsOf at 2.
  unfold isViolation, isWarning, isBlocked. simpl. rewrite Hnot. reflexivity.
Qed.

Lemma evaluateRule_REQUIRED_DISCLOSURE rule input :
  logicType rule = "REQUIRED_DISCLOSURE" ->
  evaluateRule rule input = evaluateRequiredDisclosure rule input.
Proof. intros H. unfold evaluateRule. rewrite H. reflexivity. Qed.

Lemma evaluateRule_DYNAMIC_RESCISSION rule input :
  logicType rule = "DYNAMIC_RESCISSION" ->
  evaluateRule rule input = evaluateDynamicRescission rule input.
Proof. intros H. unfold evaluateRule. rewrite H. reflexivity. Qed.

Lemma evaluateRule_TIME_WINDOW rule input :
  logicType rule = "TIME_WINDOW" ->
  evaluateRule rule input = evaluateTimeWindow rule input.
Proof. intros H. unfold evaluateRule. rewrite H. reflexivity. Qed.

Lemma evaluateRule_TIME_BASED_RESTRICTION rule input :
  logicType rule = "TIME_BASED_RESTRICTION" ->
  evaluateRule rule input = evaluateTimeBasedRestriction rule input.
Proof. intros H. unfold evaluateRule. rewrite H. reflexivity. Qed.

Lemma evaluateRule_LANGUAGE_REQUIREMENT rule input :
  logicType rule = "LANGUAGE_REQUIREMENT" ->
  evaluateRule rule input = evaluateLanguageRequirement rule input.
Proof. intros H. unfold evaluateRule. rewrite H. reflexivity. Qed.

(** X8: a REQUIRED_DISCLOSURE rule, and a DYNAMIC_RESCISSION rule with its
    two periods, never reach a verdict: whatever their severity, state and
    place in the catalog, the verdict is the one of the catalog without
    them, so the text they recommend is never returned. *)
Theorem informational_rules_unreported (a b : Catalog) (rule : Rule)
  (input : ContractValidationInput) :
  logicType rule = "REQUIRED_DISCLOSURE"
  \/ (logicType rule = "DYNAMIC_RESCISSION"
      /\ exists periods, thresholdValue rule = TCaps periods) ->
  validateContract (a ++ rule :: b) input = validateContract (a ++ b) input.
Proof.
  intros [H | [H [periods Hp]]].
  - apply (validateContract_drop_unfired a b rule input
             (mkEvaluation false
                (Some [Lit "Ensure contract includes: "; Mixed (thresholdValue rule)]))).
    + now rewrite (evaluateRule_REQUIRED_DISCLOSURE _ _ H).
    + reflexivity.
  - rewrite <- (validateContract_drop_unfired a b rule input
                  (mkEvaluation false
                     (Some [Lit "Include ";
                            Num (if Js.truthyBool (isDeclaredDisaster input)
                                 then emergency periods else standard periods);
                            Lit "-day cancellation period in contract for ";
                            Lit (stateCode rule); Lit "."]))); [reflexivity| |reflexivity].
    rewrite (evaluateRule_DYNAMIC_RESCISSION _ _ H).
    unfold evaluateDynamicRescission. now rewrite Hp.
Qed.

(** California's rescission periods as a blocking rule: still no entry. *)
Lemma informational_rules_unreported_witness :
  (logicType (ruleOf "CA" "RESCISSION" "DYNAMIC_RESCISSION" (TCaps (mkCaps 3 7)) BLOCK_ACTION)
   = "REQUIRED_DISCLOSURE"
   \/ (logicType (ruleOf "CA" "RESCISSION" "DYNAMIC_RESCISSION" (TCaps (mkCaps 3 7))
                    BLOCK_ACTION)
       = "DYNAMIC_RESCISSION"
       /\ exists periods,
            thresholdValue (ruleOf "CA" "RESCISSION" "DYNAMIC_RESCISSION"
                              (TCaps (mkCaps 3 7)) BLOCK_ACTION) = TCaps periods))
  /\ validateContract
       ([] ++ ruleOf "CA" "RESCISSION" "DYNAMIC_RESCISSION" (TCaps (mkCaps 3 7))
                BLOCK_ACTION :: [])
       (contractInput "CA")
     = Some (mkResult true [] [] []).
Proof.
  assert (H : logicType (ruleOf "CA" "RESCISSION" "DYNAMIC_RESCISSION"
                           (TCaps (mkCaps 3 7)) BLOCK_ACTION)
              = "REQUIRED_DISCLOSURE"
              \/ (logicType (ruleOf "CA" "RESCISSION" "DYNAMIC_RESCISSION"
                               (TCaps (mkCaps 3 7)) BLOCK_ACTION)
                  = "DYNAMIC_RESCISSION"
                  /\ exists periods,
                       thresholdValue (ruleOf "CA" "RESCISSION" "DYNAMIC_RESCISSION"
                                         (TCaps (mkCaps 3 7)) BLOCK_ACTION)
                       = TCaps periods)).
  { right. split; [reflexivity|]. eexists. reflexivity. }
  split; [exact H|].
  rewrite (informational_rules_unreported [] [] _ (contractInput "CA") H).
  reflexivity.
Defined.

(** X9: TIME_WINDOW and TIME_BASED_RESTRICTION rules only concern
    solicitations: on an input whose action type is absent or is not
    SOLICITATION they never fire, whatever their payload, and the verdict is
    the one of the catalog without them. *)
Theorem solicitation_rules_skip_other_actions (a b : Catalog) (rule : Rule)
  (input : ContractValidationInput) :
  logicType rule = "TIME_WINDOW" \/ logicType rule = "TIME_BASED_RESTRICTION" ->
  actionType input <> Some SOLICITATION ->
  evaluateRule rule input = Some notViolated
  /\ validateContract (a ++ rule :: b) input = validateContract (a ++ b) input.
Proof.
  intros Hlogic Haction.
  assert (Hev : evaluateRule rule input = Some notViolated).
  { destruct Hlogic as [H | H].
    - rewrite (evaluateRule_TIME_WINDOW _ _ H). unfold evaluateTimeWindow.
      destruct (actionType input) as [[]|]; try reflexivity. now elim Haction.
    - rewrite (evaluateRule_TIME_BASED_RESTRICTION _ _ H).
      unfold evaluateTimeBasedRestriction.
      destruct (actionType input) as [[]|]; simpl;
        rewrite ?orb_true_r; try reflexivity.
      now elim Haction. }
  split; [exact Hev|].
  now apply (validateContract_drop_unfired a b rule input notViolated).
Qed.

Lemma solicitation_rules_skip_other_actions_witness :
  (logicType floridaWindow = "TIME_WINDOW"
   \/ logicType floridaWindow = "TIME_BASED_RESTRICTION")
  /\ actionType (contractInput "FL") <> Some SOLICITATION
  /\ evaluateRule floridaWindow (contractInput "FL") = Some notViolated.
Proof.
  assert (H : actionType (contractInput "FL") <> Some SOLICITATION) by discriminate.
  split; [left; reflexivity|]. split; [exact H|].
  exact (proj1 (solicitation_rules_skip_other_actions [] [] floridaWindow
                  (contractInput "FL") (or_introl eq_refl) H)).
Defined.

(** ** TIME_WINDOW *)

(** The handler on a solicitation with a time, in terms of the three hours. *)
Lemma timeWindow_solicitation (rule : Rule) (input : ContractValidationInput)
  (window : Window) (time : Date) :
  logicType rule = "TIME_WINDOW" ->
  thresholdValue rule = TWindow window ->
  actionType input = Some SOLICITATION ->
  solicitationTime input = Some time ->
  exists result,
    evaluateRule rule input = Some result
    /\ violated result
       = Js.intLt (getHours time) (Js.parseInt (Js.splitHead ":" (start window)))
         || Js.intGe (getHours time) (Js.parseInt (Js.splitHead ":" (end_ window))).
Proof.
  intros Hlogic Hpayload Haction Htime.
  rewrite (evaluateRule_TIME_WINDOW _ _ Hlogic). unfold evaluateTimeWindow.
  rewrite Haction, Htime, Hpayload. simpl. eexists. split; reflexivity.
Qed.

(** The hour of a time written [HH:MM]. *)
Lemma parseInt_clock (hour : nat) (minutes : string) :
  hour < 100 ->
  Js.parseInt (Js.splitHead ":" (clock hour minutes)) = Some (Z.of_nat hour).
Proof.
  intros H.
  do 100 (destruct hour as [|hour]; [reflexivity|]).
  lia.
Qed.

(** X10: for a TIME_WINDOW rule whose bounds are written [HH:MM], a
    solicitation at hour [h] fires exactly when [h] is before the start
    hour or not before the end hour; the minutes of the two bounds are
    never read. *)
Theorem timeWindow_fires (rule : Rule) (input : ContractValidationInput)
  (startHour endHour : nat) (startMinutes endMinutes : string) (h : Z) :
  logicType rule = "TIME_WINDOW" ->
  thresholdValue rule
  = TWindow (mkWindow (clock startHour startMinutes) (clock endHour endMinutes)) ->
  startHour < 100 -> endHour < 100 ->
  actionType input = Some SOLICITATION ->
  solicitationTime input = Some (mkDate (Some h)) ->
  exists result,
    evaluateRule rule input = Some result
    /\ (violated result = true
        <-> (h < Z.of_nat startHour \/ Z.of_nat endHour <= h)%Z).
Proof.
  intros Hlogic Hpayload Hs He Haction Htime.
  destruct (timeWindow_solicitation rule input _ _ Hlogic Hpayload Haction Htime)
    as [result [Hev Hviolated]].
  exists result. split; [exact Hev|].
  rewrite Hviolated. simpl start. simpl end_.
  rewrite (parseInt_clock _ _ Hs), (parseInt_clock _ _ He). simpl.
  rewrite orb_true_iff, Z.ltb_lt, Z.leb_le. reflexivity.
Qed.

(** A window that ends at [20:30]: a solicitation at hour 20 fires. *)
Lemma timeWindow_fires_witness :
  logicType (ruleOf "FL" "SOLICITATION" "TIME_WINDOW"
               (TWindow (mkWindow (clock 8 "00") (clock 20 "30"))) WARN_BLOCK)
  = "TIME_WINDOW"
  /\ 8 < 100 /\ 20 < 100
  /\ exists result,
       evaluateRule
         (ruleOf "FL" "SOLICITATION" "TIME_WINDOW"
            (TWindow (mkWindow "08:00" "20:30")) WARN_BLOCK)
         (solicitation "FL" (Some 20%Z)) = Some result
       /\ violated result = true.
Proof.
  split; [reflexivity|]. split; [lia|]. split; [lia|].
  destruct (timeWindow_fires
              (ruleOf "FL" "SOLICITATION" "TIME_WINDOW"
                 (TWindow (mkWindow "08:00" "20:30")) WARN_BLOCK)
              (solicitation "FL" (Some 20%Z)) 8 20 "00" "30" 20%Z
              eq_refl eq_refl ltac:(lia) ltac:(lia) eq_refl eq_refl)
    as [result [H1 H2]].
  exists result. split; [exact H1|]. apply H2. right. lia.
Defined.

(** X11: a TIME_WINDOW rule whose end hour is not after its start hour, a
    window over midnight for one, fires on a solicitation at every hour. *)
Theorem timeWindow_inverted_always_fires (rule : Rule)
  (input : ContractValidationInput) (window : Window) (s e h : Z) :
  logicType rule = "TIME_WINDOW" ->
  thresholdValue rule = TWindow window ->
  Js.parseInt (Js.splitHead ":" (start window)) = Some s ->
  Js.parseInt (Js.splitHead ":" (end_ window)) = Some e ->
  (e <= s)%Z ->
  actionType input = Some SOLICITATION ->
  solicitationTime input = Some (mkDate (Some h)) ->
  exists result, evaluateRule rule input = Some result /\ violated result = true.
Proof.
  intros Hlogic Hpayload Hs He Hle Haction Htime.
  destruct (timeWindow_solicitation rule input _ _ Hlogic Hpayload Haction Htime)
    as [result [Hev Hviolated]].
  exists result. split; [exact Hev|].
  rewrite Hviolated, Hs, He. simpl.
  rewrite orb_true_iff, Z.ltb_lt, Z.leb_le. lia.
Qed.

(** A window from 22:00 to 06:00 forbids a solicitation at 23 and at 12. *)
Lemma timeWindow_inverted_always_fires_witness :
  Js.parseInt (Js.splitHead ":" "22:00") = Some 22%Z
  /\ Js.parseInt (Js.splitHead ":" "06:00") = Some 6%Z
  /\ (6 <= 22)%Z
  /\ exists result,
       evaluateRule
         (ruleOf "FL" "SOLICITATION" "TIME_WINDOW"
            (TWindow (mkWindow "22:00" "06:00")) WARN_BLOCK)
         (solicitation "FL" (Some 23%Z)) = Some result
       /\ violated result = true.
Proof.
  split; [reflexivity|]. split; [reflexivity|]. split; [lia|].
  exact (timeWindow_inverted_always_fires
           (ruleOf "FL" "SOLICITATION" "TIME_WINDOW"
              (TWindow (mkWindow "22:00" "06:00")) WARN_BLOCK)
           (solicitation "FL" (Some 23%Z)) (mkWindow "22:00" "06:00") 22 6 23
           eq_refl eq_refl eq_refl eq_refl ltac:(lia) eq_refl eq_refl).
Defined.

(** X12: a TIME_WINDOW rule never fires on a solicitation whose time is an
    invalid date, nor when neither bound of the window starts with an
    integer: what cannot be compared is let through. *)
Theorem timeWindow_fails_open (rule : Rule) (input : ContractValidationInput)
  (window : Window) (time : Date) :
  logicType rule = "TIME_WINDOW" ->
  thresholdValue rule = TWindow window ->
  actionType input = Some SOLICITATION ->
  solicitationTime input = Some time ->
  getHours time = None
  \/ (Js.parseInt (Js.splitHead ":" (start window)) = None
      /\ Js.parseInt (Js.splitHead ":" (end_ window)) = None) ->
  evaluateRule rule input = Some notViolated.
Proof.
  intros Hlogic Hpayload Haction Htime H.
  rewrite (evaluateRule_TIME_WINDOW _ _ Hlogic). unfold evaluateTimeWindow.
  rewrite Haction, Htime, Hpayload. simpl.
  destruct H as [-> | [-> ->]]; [reflexivity|].
  destruct (getHours time); reflexivity.
Qed.

Lemma timeWindow_fails_open_witness :
  (getHours (mkDate (Some 3%Z)) = None
   \/ (Js.parseInt (Js.splitHead ":" "morning") = None
       /\ Js.parseInt (Js.splitHead ":" "evening") = None))
  /\ evaluateRule
       (ruleOf "FL" "SOLICITATION" "TIME_WINDOW"
          (TWindow (mkWindow "morning" "evening")) WARN_BLOCK)
       (solicitation "FL" (Some 3%Z)) = Some notViolated.
Proof.
  split; [right; split; reflexivity|].
  exact (timeWindow_fails_open
           (ruleOf "FL" "SOLICITATION" "TIME_WINDOW"
              (TWindow (mkWindow "morning" "evening")) WARN_BLOCK)
           (solicitation "FL" (Some 3%Z)) (mkWindow "morning" "evening")
           (mkDate (Some 3%Z)) eq_refl eq_refl eq_refl eq_refl
           (or_intror (conj eq_refl eq_refl))).
Defined.

(** ** LANGUAGE_REQUIREMENT *)







Lemma toLowerCase_empty (s : string) : Js.toLowerCase s = "" <-> s = "".
Proof. destruct s; simpl; split; intros H; try reflexivity; discriminate. Qed.

(** X14: the contract language is matched without regard to letter case:
    two contract languages with the same lower-case form give the same
    evaluation of a LANGUAGE_REQUIREMENT rule. *)
Theorem languageRequirement_case_insensitive (rule : Rule)
  (input : ContractValidationInput) (language language' : string) :
  logicType rule = "LANGUAGE_REQUIREMENT" ->
  Js.toLowerCase language' = Js.toLowerCase language ->
  evaluateRule rule (withLanguage (Some language') input)
  = evaluateRule rule (withLanguage (Some language) input).
Proof.
  intros Hlogic H.
  rewrite !(evaluateRule_LANGUAGE_REQUIREMENT _ _ Hlogic).
  unfold evaluateLanguageRequirement. simpl.
  destruct (asStrings (thresholdValue rule)) as [languages|]; simpl; [|reflexivity].
  assert (Hempty : String.eqb language' "" = String.eqb language "").
  { destruct (String.eqb_spec language' "") as [E|E],
             (String.eqb_spec language "") as [E'|E']; try reflexivity.
    - subst language'. symmetry in H. change (Js.toLowerCase "") with "" in H.
      apply (proj1 (toLowerCase_empty _)) in H. contradiction.
    - subst language. change (Js.toLowerCase "") with "" in H.
      apply (proj1 (toLowerCase_empty _)) in H. contradiction. }
  rewrite Hempty, H. reflexivity.
Qed.

Lemma languageRequirement_case_insensitive_witness :
  Js.toLowerCase "SPANISH" = Js.toLowerCase "Spanish"
  /\ evaluateRule
       (ruleOf "PR" "CONTRACT_REQUIREMENT" "LANGUAGE_REQUIREMENT"
          (TStrings ["spanish"]) BLOCK_ACTION)
       (withLanguage (Some "SPANISH") (emptyInput "PR"))
     = Some notViolated.
Proof.
  split; [reflexivity|].
  rewrite (languageRequirement_case_insensitive
             (ruleOf "PR" "CONTRACT_REQUIREMENT" "LANGUAGE_REQUIREMENT"
                (TStrings ["spanish"]) BLOCK_ACTION)
             (emptyInput "PR") "Spanish" "SPANISH" eq_refl eq_refl).
  reflexivity.
Defined.

(** X15: a LANGUAGE_REQUIREMENT rule fires on every input whose contract
    language is absent or empty, whatever its list; and a rule whose list
    is empty fires on every input. *)
Theorem languageRequirement_fires_without_language (rule : Rule)
  (input : ContractValidationInput) (languages : list string) :
  logicType rule = "LANGUAGE_REQUIREMENT" ->
  thresholdValue rule = TStrings languages ->
  contractLanguage input = None \/ contractLanguage input = Some "" \/ languages = [] ->
  exists result, evaluateRule rule input = Some result /\ violated result = true.
Proof.
  intros Hlogic Hpayload H.
  rewrite (evaluateRule_LANGUAGE_REQUIREMENT _ _ Hlogic).
  unfold evaluateLanguageRequirement. rewrite Hpayload. simpl.
  destruct H as [-> | [-> | ->]].
  - eexists. split; reflexivity.
  - eexists. split; reflexivity.
  - destruct (contractLanguage input) as [language|]; [|eexists; split; reflexivity].
    destruct (String.eqb language ""); eexists; split; reflexivity.
Qed.

Lemma languageRequirement_fires_without_language_witness :
  (contractLanguage (withLanguage (Some "English") (emptyInput "PR")) = None
   \/ contractLanguage (withLanguage (Some "English") (emptyInput "PR")) = Some ""
   \/ @nil string = [])
  /\ exists result,
       evaluateRule
         (ruleOf "PR" "CONTRACT_REQUIREMENT" "LANGUAGE_REQUIREMENT" (TStrings [])
            WARN_CONTINUE)
         (withLanguage (Some "English") (emptyInput "PR")) = Some result
       /\ violated result = true.
Proof.
  split; [right; right; reflexivity|].
  exact (languageRequirement_fires_without_language
           (ruleOf "PR" "CONTRACT_REQUIREMENT" "LANGUAGE_REQUIREMENT" (TStrings [])
              WARN_CONTINUE)
           (withLanguage (Some "English") (emptyInput "PR")) []
           eq_refl eq_refl (or_intror (or_intror eq_refl))).
Defined.

(** ** The recommended action *)

(** Every evaluation that fires carries a recommended action. *)
Lemma fired_has_recommendedAction (rule : Rule) (input : ContractValidationInput)
  (result : Evaluation) :
  evaluateRule rule input = Some result ->
  violated result = true ->
  recommendedAction result <> None.
Proof.
  unfold evaluateRule.
  destruct (String.eqb (logicType rule) "FORBIDDEN_KEYWORD").
  { unfold evaluateForbiddenKeyword.
    destruct (asStrings (thresholdValue rule)); simpl; [|discriminate].
    intros [= <-] _. discriminate. }
  destruct (String.eqb (logicType rule) "FORBIDDEN_ACTION").
  { intros [= <-] _. discriminate. }
  destruct (String.eqb (logicType rule) "FORBIDDEN_FEE_TYPE").
  { unfold evaluateForbiddenFeeType.
    destruct (asStrings (thresholdValue rule)); simpl; [|discriminate].
    intros [= <-]. simpl. intros ->. discriminate. }
  destruct (String.eqb (logicType rule) "MAX_PERCENTAGE").
  { unfold evaluateMaxPercentage.
    destruct (feePercentage input) as [fee|]; [|intros [= <-]; discriminate].
    destruct (Js.falsyNumber fee); [intros [= <-]; discriminate|].
    destruct (asNumber (thresholdValue rule)); simpl; [|discriminate].
    intros [= <-]. simpl. intros ->. discriminate. }
  destruct (String.eqb (logicType rule) "DYNAMIC_CAP").
  { unfold evaluateDynamicCap.
    destruct (feePercentage input) as [fee|]; [|intros [= <-]; discriminate].
    destruct (Js.falsyNumber fee); [intros [= <-]; discriminate|].
    destruct (asCaps (thresholdValue rule)); simpl; [|discriminate].
    intros [= <-]. simpl. intros ->. discriminate. }
  destruct (String.eqb (logicType rule) "SLIDING_SCALE").
  { unfold evaluateSlidingScale.
    destruct (feeAmount input) as [fee|]; [|intros [= <-]; discriminate].
    destruct (claimAmount input) as [claim|]; [|intros [= <-]; discriminate].
    destruct (Js.falsyNumber fee || Js.falsyNumber claim);
      [intros [= <-]; discriminate|].
    destruct (asScale (thresholdValue rule)); simpl; [|discriminate].
    intros [= <-]. simpl. intros ->. discriminate. }
  destruct (String.eqb (logicType rule) "TIME_WINDOW").
  { unfold evaluateTimeWindow.
    destruct (actionType input) as [[]|]; try (intros [= <-]; discriminate).
    destruct (solicitationTime input); [|intros [= <-]; discriminate].
    destruct (asWindow (thresholdValue rule)); simpl; [|discriminate].
    intros [= <-]. simpl. intros ->. discriminate. }
  destruct (String.eqb (logicType rule) "TIME_BASED_RESTRICTION").
  { unfold evaluateTimeBasedRestriction.
    destruct (negb (Js.truthyBool (isDeclaredDisaster input))
              || negb (isAction (actionType input) "SOLICITATION"));
      [intros [= <-]; discriminate|].
    destruct (asRestriction (thresholdValue rule)); simpl; [|discriminate].
    intros [= <-] _. discriminate. }
  destruct (String.eqb (logicType rule) "LANGUAGE_REQUIREMENT").
  { unfold evaluateLanguageRequirement.
    destruct (asStrings (thresholdValue rule)); simpl; [|discriminate].
    destruct (contractLanguage input) as [language|];
      [|intros [= <-] _; discriminate].
    destruct (String.eqb language ""); [intros [= <-] _; discriminate|].
    intros [= <-]. simpl. intros ->. discriminate. }
  destruct (String.eqb (logicType rule) "REQUIRED_DISCLOSURE").
  { intros [= <-]. discriminate. }
  destruct (String.eqb (logicType rule) "DYNAMIC_RESCISSION").
  { unfold evaluateDynamicRescission.
    destruct (asCaps (thresholdValue rule)); simpl; [|discriminate].
    intros [= <-]. discriminate. }
  intros [= <-]. discriminate.
Qed.

(** X16: every violation and every warning of a verdict carries a
    recommended action: each of the eleven handlers gives one whenever it
    fires. *)
Theorem verdict_entries_have_recommendedAction (catalog : Catalog)
  (input : ContractValidationInput) (verdict : ComplianceValidationResult) :
  validateContract catalog input = Some verdict ->
  (forall v, In v (violations verdict) -> v_recommendedAction v <> None)
  /\ (forall w, In w (warnings verdict) -> w_recommendedAction w <> None).
Proof.
  intros H. destruct (validateContract_results _ _ _ H) as [results [Hres ->]].
  simpl. split.
  - intros v Hv. unfold violationsOf in Hv. apply in_map_iff in Hv.
    destruct Hv as [[rule result] [<- Hp]]. apply filter_In in Hp.
    destruct Hp as [Hp Hclass]. apply (evaluateAll_In _ _ _ Hres) in Hp.
    unfold isViolation in Hclass. apply andb_prop in Hclass. simpl in *.
    apply (fired_has_recommendedAction rule input); tauto.
  - intros w Hw. unfold warningsOf in Hw. apply in_map_iff in Hw.
    destruct Hw as [[rule result] [<- Hp]]. apply filter_In in Hp.
    destruct Hp as [Hp Hclass]. apply (evaluateAll_In _ _ _ Hres) in Hp.
    unfold isWarning in Hclass. apply andb_prop in Hclass. simpl in *.
    apply (fired_has_recommendedAction rule input); tauto.
Qed.

Lemma verdict_entries_have_recommendedAction_witness :
  validateContract [tennesseeRule] tennesseeInput
  = Some (mkResult false
            [mkViolation "r1" "TN" "FEE_CAP" BLOCK_ACTION "" None None
               (Some [Lit "Reduce fee to "; Fixed (0.10 * 100)%float 1;
                      Lit "% or less to comply with "; Lit "TN"; Lit " law."])]
            [] ["FEE_CAP"])
  /\ forall v,
       In v [mkViolation "r1" "TN" "FEE_CAP" BLOCK_ACTION "" None None
               (Some [Lit "Reduce fee to "; Fixed (0.10 * 100)%float 1;
                      Lit "% or less to comply with "; Lit "TN"; Lit " law."])] ->
       v_recommendedAction v <> None.
Proof.
  split; [reflexivity|].
  exact (proj1 (verdict_entries_have_recommendedAction [tennesseeRule] tennesseeInput
                  _ eq_refl)).
Defined.

(** ** The eligibility query *)

Lemma Severity_eqb_eq (a b : Severity) : Severity_eqb a b = true <-> a = b.
Proof. destruct a, b; simpl; split; intros H; try reflexivity; discriminate. Qed.

Lemma bansState_spec (code : string) (rule : Rule) :
  bansState code rule = true
  <-> stateCode rule = code /\ category rule = "LICENSE_RESTRICTION"
      /\ severity rule = BLOCK_ACTION /\ isActive rule = true.
Proof.
  unfold bansState.
  rewrite !andb_true_iff, !String.eqb_eq, Severity_eqb_eq. tauto.
Qed.

(** X17: [isPublicAdjustingAllowed] answers "not allowed" exactly when the
    catalog has an active rule of that state (in upper case), of category
    LICENSE_RESTRICTION and severity BLOCK_ACTION, and then gives the error
    message of such a rule as the reason; otherwise it gives no reason.
    The rule's logic type and payload are not looked at, and neither are
    the DEFAULT_GREEN rules. *)
Theorem isPublicAdjustingAllowed_spec (catalog : Catalog) (code : string) :
  (allowed (isPublicAdjustingAllowed catalog code) = false
   <-> exists rule, In rule catalog /\ bansState (Js.toUpperCase code) rule = true)
  /\ (allowed (isPublicAdjustingAllowed catalog code) = true ->
      reason (isPublicAdjustingAllowed catalog code) = None)
  /\ (allowed (isPublicAdjustingAllowed catalog code) = false ->
      exists rule,
        In rule catalog
        /\ stateCode rule = Js.toUpperCase code
        /\ category rule = "LICENSE_RESTRICTION"
        /\ severity rule = BLOCK_ACTION
        /\ isActive rule = true
        /\ reason (isPublicAdjustingAllowed catalog code) = Some (errorMessage rule)).
Proof.
  unfold isPublicAdjustingAllowed.
  change (findBlockingRule catalog (Js.toUpperCase code))
    with (find (bansState (Js.toUpperCase code)) catalog).
  destruct (find (bansState (Js.toUpperCase code)) catalog) as [rule|] eqn:E; simpl.
  - apply find_some in E. destruct E as [Hin Hban].
    split; [|split].
    + split; [|reflexivity]. intros _. now exists rule.
    + discriminate.
    + intros _. exists rule. apply bansState_spec in Hban. tauto.
  - split; [|split].
    + split; [discriminate|]. intros [rule [Hin Hban]].
      rewrite (find_none _ _ E rule Hin) in Hban. discriminate.
    + reflexivity.
    + discriminate.
Qed.

Lemma evaluateForbiddenAction_fires (rule : Rule) (input : ContractValidationInput) :
  logicType rule = "FORBIDDEN_ACTION" ->
  exists result, evaluateRule rule input = Some result /\ violated result = true.
Proof.
  intros H. rewrite (evaluateRule_FORBIDDEN_ACTION _ _ H).
  eexists. split; reflexivity.
Qed.

(** X18: the two gates agree on a total ban.  When the catalog has an
    active FORBIDDEN_ACTION rule of a state with category
    LICENSE_RESTRICTION and severity BLOCK_ACTION, the eligibility query
    answers "not allowed" for that state, and every verdict for an input of
    that state is invalid with LICENSE_RESTRICTION among the blocked
    actions. *)
Theorem total_ban_closes_both_gates (catalog : Catalog) (rule : Rule)
  (input : ContractValidationInput) (verdict : ComplianceValidationResult) :
  In rule catalog ->
  bansState (Js.toUpperCase (inStateCode input)) rule = true ->
  logicType rule = "FORBIDDEN_ACTION" ->
  validateContract catalog input = Some verdict ->
  allowed (isPublicAdjustingAllowed catalog (inStateCode input)) = false
  /\ isValid verdict = false
  /\ In "LICENSE_RESTRICTION" (blockedActions verdict).
Proof.
  intros Hin Hban Hlogic Hverdict. split.
  - unfold isPublicAdjustingAllowed.
    change (findBlockingRule catalog (Js.toUpperCase (inStateCode input)))
      with (find (bansState (Js.toUpperCase (inStateCode input))) catalog).
    destruct (find _ catalog) eqn:E; [reflexivity|].
    rewrite (find_none _ _ E rule Hin) in Hban. discriminate.
  - destruct (evaluateForbiddenAction_fires rule input Hlogic) as [result [Hev Hfired]].
    apply bansState_spec in Hban. destruct Hban as (Hcode & Hcat & Hsev & Hactive).
    assert (Happ : applies (Js.toUpperCase (inStateCode input)) rule = true).
    { unfold applies. rewrite Hcode, String.eqb_refl, Hactive. reflexivity. }
    assert (Hblocking : blocking (severity rule) = true) by now rewrite Hsev.
    destruct (fired_blocking_rule_in_verdict _ _ _ _ _ Hverdict Hin Happ Hev Hfired
                Hblocking) as [H1 [_ H3]].
    split; [exact H1|]. rewrite <- Hcat. now apply H3.
Qed.

Lemma total_ban_closes_both_gates_witness :
  In alabamaBan [floridaRule; alabamaBan]
  /\ bansState (Js.toUpperCase (inStateCode (contractInput "al"))) alabamaBan = true
  /\ logicType alabamaBan = "FORBIDDEN_ACTION"
  /\ allowed (isPublicAdjustingAllowed [floridaRule; alabamaBan] "al") = false.
Proof.
  split; [right; left; reflexivity|]. split; [reflexivity|]. split; [reflexivity|].
  exact (proj1 (total_ban_closes_both_gates [floridaRule; alabamaBan] alabamaBan
                  (contractInput "al") _ (or_intror (or_introl eq_refl))
                  eq_refl eq_refl eq_refl)).
Defined.

(** ** The fee-cap query and the fee rules *)

(** Nothing exceeds itself. *)
Lemma gt_irrefl (x : float) : Js.gt x x = false.
Proof. apply ltb_irrefl. Qed.

(** X19: what the fee-cap query answers is accepted by the rule it read.
    When the query finds a MAX_PERCENTAGE, DYNAMIC_CAP or SLIDING_SCALE rule
    and answers [fee], an input that charges exactly [maxPercentage] and
    [maxAmount] on that claim, with the same emergency flag and no declared
    disaster, does not fire that rule. *)
Theorem quoted_fee_is_accepted (catalog : Catalog) (code : string) (claim : float)
  (flag : bool) (feeRule : Rule) (fee : MaximumFee) :
  findFeeRule catalog (Js.toUpperCase code) = Some feeRule ->
  logicType feeRule = "MAX_PERCENTAGE" \/ logicType feeRule = "DYNAMIC_CAP"
  \/ logicType feeRule = "SLIDING_SCALE" ->
  getMaximumFee catalog code claim (Some flag) = Some fee ->
  exists result,
    evaluateRule feeRule (quotedInput code claim flag fee) = Some result
    /\ violated result = false.
Proof.
  intros Hfind Hlogic. unfold getMaximumFee. rewrite Hfind.
  destruct Hlogic as [H | [H | H]]; rewrite H; simpl.
  - rewrite (evaluateRule_MAX_PERCENTAGE _ _ H). unfold evaluateMaxPercentage.
    destruct (asNumber (thresholdValue feeRule)) as [c|]; simpl; [|discriminate].
    intros [= <-]. simpl.
    destruct (Js.falsyNumber c); eexists; split; try reflexivity.
    simpl. apply gt_irrefl.
  - rewrite (evaluateRule_DYNAMIC_CAP _ _ H). unfold evaluateDynamicCap.
    destruct (asCaps (thresholdValue feeRule)) as [caps|]; simpl; [|discriminate].
    intros [= <-]. simpl.
    destruct (Js.falsyNumber (if flag then emergency caps else standard caps))
      eqn:E; rewrite ?E; eexists; split; try reflexivity.
    simpl. destruct flag; simpl; apply gt_irrefl.
  - rewrite (evaluateRule_SLIDING_SCALE _ _ H). unfold evaluateSlidingScale.
    destruct (asScale (thresholdValue feeRule)) as [scale|]; simpl; [|discriminate].
    intros [= <-]. simpl.
    match goal with
    | |- context [if ?b then ret notViolated else _] => destruct b
    end; eexists; split; try reflexivity.
    simpl. apply gt_irrefl.
Qed.

Lemma quoted_fee_is_accepted_witness :
  findFeeRule sampleCatalog (Js.toUpperCase "de") = Some delawareRule
  /\ (logicType delawareRule = "MAX_PERCENTAGE" \/ logicType delawareRule = "DYNAMIC_CAP"
      \/ logicType delawareRule = "SLIDING_SCALE")
  /\ getMaximumFee sampleCatalog "de" 100000 (Some false)
     = Some (mkMaximumFee (9625 / 100000) 9625
               (Some [Lit "Sliding scale: "; Num (0.025 * 100)%float; Lit "% up to $";
                      Num 25000; Lit ", "; Num (0.12 * 100)%float; Lit "% above"]))
  /\ exists result,
       evaluateRule delawareRule (delawareInput 9625 100000) = Some result
       /\ violated result = false.
Proof.
  split; [reflexivity|]. split; [right; right; reflexivity|]. split; [reflexivity|].
  destruct (quoted_fee_is_accepted sampleCatalog "de" 100000 false delawareRule _
              eq_refl (or_intror (or_intror eq_refl)) eq_refl) as [result [H1 H2]].
  exists result. split; [|exact H2].
  rewrite <- H1. reflexivity.
Defined.

(** X20: the fee-cap query does not know of a declared disaster.  For a
    DYNAMIC_CAP rule whose emergency cap is below its standard cap, the
    query asked without the emergency flag answers the standard cap, and an
    input that charges that cap in a declared disaster fires the rule. *)
Theorem quoted_cap_fires_in_disaster (catalog : Catalog) (code : string)
  (claim : float) (feeRule : Rule) (caps : Caps) (input : ContractValidationInput) :
  findFeeRule catalog (Js.toUpperCase code) = Some feeRule ->
  logicType feeRule = "DYNAMIC_CAP" ->
  thresholdValue feeRule = TCaps caps ->
  PrimFloat.ltb (emergency caps) (standard caps) = true ->
  PrimFloat.is_zero (standard caps) = false ->
  isDeclaredDisaster input = Some true ->
  feePercentage input = Some (standard caps) ->
  (exists fee, getMaximumFee catalog code claim None = Some fee
               /\ maxPercentage fee = standard caps)
  /\ (exists result, evaluateRule feeRule input = Some result
                     /\ violated result = true).
Proof.
  intros Hfind Hlogic Hpayload Hlt Hnonzero Hdisaster Hfee. split.
  - unfold getMaximumFee. rewrite Hfind, Hlogic, Hpayload. simpl.
    eexists. split; reflexivity.
  - rewrite (evaluateRule_DYNAMIC_CAP _ _ Hlogic). unfold evaluateDynamicCap.
    rewrite Hfee, Hpayload, Hdisaster. unfold Js.falsyNumber.
    destruct (ltb_not_nan _ _ Hlt) as [_ Hnan]. rewrite Hnonzero, Hnan. simpl.
    rewrite orb_true_r. eexists. split; [reflexivity|]. exact Hlt.
Qed.

(** Florida: 20% is the answer, and 20% in a declared disaster fires. *)
Lemma quoted_cap_fires_in_disaster_witness :
  findFeeRule sampleCatalog (Js.toUpperCase "fl") = Some floridaRule
  /\ PrimFloat.ltb (emergency floridaCaps) (standard floridaCaps) = true
  /\ PrimFloat.is_zero (standard floridaCaps) = false
  /\ (exists fee, getMaximumFee sampleCatalog "fl" 50000 None = Some fee
                  /\ maxPercentage fee = 0.20%float)
  /\ (exists result, evaluateRule floridaRule (disasterInput "fl" 0.20) = Some result
                     /\ violated result = true).
Proof.
  split; [reflexivity|]. split; [reflexivity|]. split; [reflexivity|].
  exact (quoted_cap_fires_in_disaster sampleCatalog "fl" 50000 floridaRule floridaCaps
           (disasterInput "fl" 0.20) eq_refl eq_refl eq_refl eq_refl eq_refl
           eq_refl eq_refl).
Defined.

(** X21: the fee-cap query does not read the DEFAULT_GREEN rules that
    [validateContract] enforces.  With no active FEE_CAP rule of the state
    itself the query answers the 33% fallback, even when an active
    DEFAULT_GREEN MAX_PERCENTAGE rule of a blocking severity caps the fee
    below 33%: an input that charges 33% then gets an invalid verdict. *)
Theorem default_green_cap_not_quoted (catalog : Catalog) (code : string)
  (claim cap : float) (rule : Rule) (verdict : ComplianceValidationResult) :
  (forall r, In r catalog ->
     stateCode r = Js.toUpperCase code -> category r = "FEE_CAP" ->
     isActive r = false) ->
  In rule catalog ->
  stateCode rule = "DEFAULT_GREEN" ->
  isActive rule = true ->
  logicType rule = "MAX_PERCENTAGE" ->
  thresholdValue rule = TNumber cap ->
  blocking (severity rule) = true ->
  PrimFloat.ltb cap 0.33 = true ->
  validateContract catalog (feeInput code 0.33) = Some verdict ->
  getMaximumFee catalog code claim None
  = Some (mkMaximumFee 0.33 (claim * 0.33)%float (Some [Lit fallbackNotes]))
  /\ isValid verdict = false.
Proof.
  intros Hnone Hin Hcode Hactive Hlogic Hpayload Hsev Hlt Hverdict. split.
  - unfold getMaximumFee. now rewrite (findFeeRule_none _ _ Hnone).
  - assert (Happ : applies (Js.toUpperCase (inStateCode (feeInput code 0.33))) rule
                   = true).
    { unfold applies. rewrite Hcode, Hactive. simpl. now rewrite orb_true_r. }
    assert (Hev : evaluateRule rule (feeInput code 0.33)
                  = Some (mkEvaluation true
                            (Some [Lit "Reduce fee to "; Fixed (cap * 100)%float 1;
                                   Lit "% or less to comply with ";
                                   Lit (stateCode rule); Lit " law."]))).
    { rewrite (evaluateRule_MAX_PERCENTAGE _ _ Hlogic). unfold evaluateMaxPercentage.
      rewrite Hpayload. simpl. unfold Js.gt. rewrite Hlt. reflexivity. }
    exact (proj1 (fired_blocking_rule_in_verdict _ _ _ _ _ Hverdict Hin Happ Hev
                    eq_refl Hsev)).
Qed.

Lemma default_green_cap_not_quoted_witness :
  PrimFloat.ltb 0.10 0.33 = true
  /\ getMaximumFee [greenCap 0.10 WARN_BLOCK] "ga" 1000 None
     = Some (mkMaximumFee 0.33 (1000 * 0.33)%float (Some [Lit fallbackNotes]))
  /\ exists verdict,
       validateContract [greenCap 0.10 WARN_BLOCK] (feeInput "ga" 0.33) = Some verdict
       /\ isValid verdict = false.
Proof.
  split; [reflexivity|].
  assert (Hnone : forall r, In r [greenCap 0.10 WARN_BLOCK] ->
                    stateCode r = Js.toUpperCase "ga" -> category r = "FEE_CAP" ->
                    isActive r = false) by no_fee_cap.
  destruct (default_green_cap_not_quoted [greenCap 0.10 WARN_BLOCK] "ga" 1000 0.10
              (greenCap 0.10 WARN_BLOCK) _ Hnone (or_introl eq_refl) eq_refl eq_refl
              eq_refl eq_refl eq_refl eq_refl eq_refl) as [H1 H2].
  split; [exact H1|]. eexists. split; [reflexivity | exact H2].
Defined.

(** ** The table of recommended actions *)




(** ** The order of the numbers, and the fee rules *)

Lemma compare_cont_Eq (m m' : positive) :
  Pos.compare_cont Eq m m' = (m ?= m')%positive.
Proof. reflexivity. Qed.

Lemma SFltb_key (x y : spec_float) :
  SFltb x y = true <-> sfNumber x /\ sfNumber y /\ keyLt (sfKey x) (sfKey y).
Proof.
  unfold SFltb, sfNumber.
  destruct x as [s|s| |s m e], y as [s'|s'| |s' m' e']; simpl;
    try (destruct s); try (destruct s'); simpl;
    try (split; [discriminate | intros (H1 & H2 & H3); try congruence; lia]);
    try (split; [intros _; repeat split; try discriminate; lia | reflexivity]).
  - rewrite compare_cont_Eq.
    destruct (Z.compare_spec e e'), (Pos.compare_spec m m'); simpl;
      (split; [intros Hc; try discriminate; repeat split; try discriminate; lia
              | intros (K1 & K2 & K3); try reflexivity; lia]).
  - rewrite compare_cont_Eq.
    destruct (Z.compare_spec e e'), (Pos.compare_spec m m'); simpl;
      (split; [intros Hc; try discriminate; repeat split; try discriminate; lia
              | intros (K1 & K2 & K3); try reflexivity; lia]).
Qed.

Lemma SFleb_key (x y : spec_float) :
  SFleb x y = true
  <-> sfNumber x /\ sfNumber y
      /\ (keyLt (sfKey x) (sfKey y) \/ keyEq (sfKey x) (sfKey y)).
Proof.
  unfold SFleb, sfNumber.
  destruct x as [s|s| |s m e], y as [s'|s'| |s' m' e']; simpl;
    try (destruct s); try (destruct s'); simpl;
    try (split; [discriminate | intros (H1 & H2 & H3); try congruence; lia]);
    try (split; [intros _; repeat split; try discriminate; lia | reflexivity]).
  - rewrite compare_cont_Eq.
    destruct (Z.compare_spec e e'), (Pos.compare_spec m m'); simpl;
      (split; [intros Hc; try discriminate; repeat split; try discriminate; lia
              | intros (K1 & K2 & K3); try reflexivity; lia]).
  - rewrite compare_cont_Eq.
    destruct (Z.compare_spec e e'), (Pos.compare_spec m m'); simpl;
      (split; [intros Hc; try discriminate; repeat split; try discriminate; lia
              | intros (K1 & K2 & K3); try reflexivity; lia]).
Qed.

Lemma ltb_leb_trans (x y z : float) :
  PrimFloat.ltb x y = true -> PrimFloat.leb y z = true -> PrimFloat.ltb x z = true.
Proof.
  rewrite !ltb_spec, leb_spec, !SFltb_key, SFleb_key.
  destruct (sfKey (Prim2SF x)) as [[x1 x2] x3], (sfKey (Prim2SF y)) as [[y1 y2] y3],
    (sfKey (Prim2SF z)) as [[z1 z2] z3].
  unfold keyLt, keyEq. intros (Hx & Hy & H) (_ & Hz & H').
  repeat split; try assumption. lia.
Qed.

Lemma leb_ltb_trans (x y z : float) :
  PrimFloat.leb x y = true -> PrimFloat.ltb y z = true -> PrimFloat.ltb x z = true.
Proof.
  rewrite !ltb_spec, leb_spec, !SFltb_key, SFleb_key.
  destruct (sfKey (Prim2SF x)) as [[x1 x2] x3], (sfKey (Prim2SF y)) as [[y1 y2] y3],
    (sfKey (Prim2SF z)) as [[z1 z2] z3].
  unfold keyLt, keyEq. intros (Hx & Hy & H) (_ & Hz & H').
  repeat split; try assumption. lia.
Qed.

Lemma leb_not_nan_r (x y : float) :
  PrimFloat.leb x y = true -> PrimFloat.is_nan y = false.
Proof.
  rewrite leb_spec, SFleb_key, is_nan_spec. unfold sfNumber.
  intros (_ & H & _). destruct (Prim2SF y); try reflexivity. now elim H.
Qed.

(** [x > c] goes up with [x] and down with [c]. *)
Lemma gt_monotone (x x' c c' : float) :
  PrimFloat.leb x x' = true -> PrimFloat.leb c' c = true ->
  Js.gt x c = true -> Js.gt x' c' = true.
Proof.
  unfold Js.gt. intros Hx Hc H.
  apply (leb_ltb_trans c' c x' Hc). now apply (ltb_leb_trans c x x').
Qed.

Lemma leb_refl_number (x : float) : PrimFloat.is_nan x = false -> PrimFloat.leb x x = true.
Proof.
  rewrite is_nan_spec, leb_spec. unfold SFleb. rewrite SFcompare_refl.
  now intros ->.
Qed.

Lemma not_falsy_above (fee fee' : float) :
  PrimFloat.leb fee fee' = true -> PrimFloat.is_zero fee' = false ->
  Js.falsyNumber fee' = false.
Proof.
  intros Hle Hzero. unfold Js.falsyNumber.
  now rewrite Hzero, (leb_not_nan_r _ _ Hle).
Qed.

(** X23: the three fee rules are monotone in the fee.  If a MAX_PERCENTAGE
    or DYNAMIC_CAP rule fires on an input, it fires on the same input with
    any higher fee percentage that is not zero; if a SLIDING_SCALE rule
    fires on an input, it fires on the same input with any higher fee
    amount that is not zero. *)
Theorem fee_rules_monotone (rule : Rule) (input : ContractValidationInput)
  (fee fee' : float) :
  PrimFloat.leb fee fee' = true ->
  PrimFloat.is_zero fee' = false ->
  (logicType rule = "MAX_PERCENTAGE" \/ logicType rule = "DYNAMIC_CAP" ->
   forall result,
     evaluateRule rule (withFeePercentage fee input) = Some result ->
     violated result = true ->
     exists result',
       evaluateRule rule (withFeePercentage fee' input) = Some result'
       /\ violated result' = true)
  /\ (logicType rule = "SLIDING_SCALE" ->
      forall result,
        evaluateRule rule (withFeeAmount fee input) = Some result ->
        violated result = true ->
        exists result',
          evaluateRule rule (withFeeAmount fee' input) = Some result'
          /\ violated result' = true).
Proof.
  intros Hle Hzero.
  pose proof (not_falsy_above _ _ Hle Hzero) as Htruthy.
  split.
  - intros [H | H] result.
    + rewrite !(evaluateRule_MAX_PERCENTAGE _ _ H). unfold evaluateMaxPercentage.
      simpl. rewrite Htruthy.
      destruct (Js.falsyNumber fee); [intros [= <-]; discriminate|].
      destruct (asNumber (thresholdValue rule)) as [c|]; simpl; [|discriminate].
      intros [= <-]. simpl. intros Hgt.
      eexists. split; [reflexivity|]. simpl.
      exact (ltb_leb_trans _ _ _ Hgt Hle).
    + rewrite !(evaluateRule_DYNAMIC_CAP _ _ H). unfold evaluateDynamicCap.
      simpl. rewrite Htruthy.
      destruct (Js.falsyNumber fee); [intros [= <-]; discriminate|].
      destruct (asCaps (thresholdValue rule)) as [caps|]; simpl; [|discriminate].
      intros [= <-]. simpl. intros Hgt.
      eexists. split; [reflexivity|]. simpl.
      exact (ltb_leb_trans _ _ _ Hgt Hle).
  - intros H result.
    rewrite !(evaluateRule_SLIDING_SCALE _ _ H). unfold evaluateSlidingScale.
    simpl. destruct (claimAmount input) as [claim|]; [|intros [= <-]; discriminate].
    rewrite Htruthy.
    destruct (Js.falsyNumber fee); simpl; [intros [= <-]; discriminate|].
    destruct (Js.falsyNumber claim); [intros [= <-]; discriminate|].
    destruct (asScale (thresholdValue rule)) as [scale|]; simpl; [|discriminate].
    intros [= <-]. simpl. intros Hgt.
    eexists. split; [reflexivity|]. simpl.
    exact (ltb_leb_trans _ _ _ Hgt Hle).
Qed.

(** Tennessee: 12% fires, so 50% fires. *)
Lemma fee_rules_monotone_witness :
  PrimFloat.leb 0.12 0.5 = true
  /\ PrimFloat.is_zero 0.5 = false
  /\ exists result',
       evaluateRule tennesseeRule (withFeePercentage 0.5 tennesseeInput) = Some result'
       /\ violated result' = true.
Proof.
  split; [reflexivity|]. split; [reflexivity|].
  exact (proj1 (fee_rules_monotone tennesseeRule tennesseeInput 0.12 0.5
                  eq_refl eq_refl)
           (or_introl eq_refl) _ eq_refl eq_refl).
Defined.

(** X24: a lower cap is a stricter rule.  If a MAX_PERCENTAGE rule with cap
    [c] fires on an input, the same rule with any cap [c'] not above [c]
    fires on it too. *)
Theorem lower_cap_is_stricter (rule rule' : Rule) (input : ContractValidationInput)
  (c c' : float) (result : Evaluation) :
  logicType rule = "MAX_PERCENTAGE" -> thresholdValue rule = TNumber c ->
  logicType rule' = "MAX_PERCENTAGE" -> thresholdValue rule' = TNumber c' ->
  PrimFloat.leb c' c = true ->
  evaluateRule rule input = Some result ->
  violated result = true ->
  exists result', evaluateRule rule' input = Some result' /\ violated result' = true.
Proof.
  intros Hl Hp Hl' Hp' Hle.
  rewrite (evaluateRule_MAX_PERCENTAGE _ _ Hl), (evaluateRule_MAX_PERCENTAGE _ _ Hl').
  unfold evaluateMaxPercentage. rewrite Hp, Hp'.
  destruct (feePercentage input) as [fee|]; [|intros [= <-]; discriminate].
  destruct (Js.falsyNumber fee); [intros [= <-]; discriminate|]. simpl.
  intros [= <-]. simpl. intros Hgt.
  eexists. split; [reflexivity|]. simpl.
  exact (leb_ltb_trans _ _ _ Hle Hgt).
Qed.

Lemma lower_cap_is_stricter_witness :
  PrimFloat.leb 0.05 0.10 = true
  /\ exists result',
       evaluateRule (ruleOf "TN" "FEE_CAP" "MAX_PERCENTAGE" (TNumber 0.05) WARN_BLOCK)
         tennesseeInput = Some result'
       /\ violated result' = true.
Proof.
  split; [reflexivity|].
  exact (lower_cap_is_stricter tennesseeRule
           (ruleOf "TN" "FEE_CAP" "MAX_PERCENTAGE" (TNumber 0.05) WARN_BLOCK)
           tennesseeInput 0.10 0.05 _ eq_refl eq_refl eq_refl eq_refl eq_refl
           eq_refl eq_refl).
Defined.

(** ** TIME_BASED_RESTRICTION *)

(** X25: a TIME_BASED_RESTRICTION rule fires exactly on a solicitation in a
    declared disaster.  Neither [restrictionHours] nor [triggerEvent]
    takes part: the rule fires however long the restriction is, zero hours
    included. *)
Theorem timeBasedRestriction_fires (rule : Rule) (input : ContractValidationInput)
  (restriction : Restriction) :
  logicType rule = "TIME_BASED_RESTRICTION" ->
  thresholdValue rule = TRestriction restriction ->
  exists result,
    evaluateRule rule input = Some result
    /\ (violated result = true
        <-> isDeclaredDisaster input = Some true
            /\ actionType input = Some SOLICITATION).
Proof.
  intros Hlogic Hpayload.
  rewrite (evaluateRule_TIME_BASED_RESTRICTION _ _ Hlogic).
  unfold evaluateTimeBasedRestriction. rewrite Hpayload.
  destruct (isDeclaredDisaster input) as [[]|], (actionType input) as [[]|]; simpl;
    eexists; (split; [reflexivity|]); simpl;
    (split; [intros H; try discriminate; auto | intros [H1 H2]; try discriminate;
                                                  try reflexivity]).
Qed.

Lemma timeBasedRestriction_fires_witness :
  logicType (ruleOf "TX" "CATASTROPHE_RESTRICTION" "TIME_BASED_RESTRICTION"
               (TRestriction (mkRestriction 0 "DISASTER_DECLARATION")) BLOCK_ACTION)
  = "TIME_BASED_RESTRICTION"
  /\ exists result,
       evaluateRule
         (ruleOf "TX" "CATASTROPHE_RESTRICTION" "TIME_BASED_RESTRICTION"
            (TRestriction (mkRestriction 0 "DISASTER_DECLARATION")) BLOCK_ACTION)
         (mkInput "TX" None None None None None None (Some true) None
            (Some SOLICITATION) None) = Some result
       /\ violated result = true.
Proof.
  split; [reflexivity|].
  destruct (timeBasedRestriction_fires
              (ruleOf "TX" "CATASTROPHE_RESTRICTION" "TIME_BASED_RESTRICTION"
                 (TRestriction (mkRestriction 0 "DISASTER_DECLARATION")) BLOCK_ACTION)
              (mkInput "TX" None None None None None None (Some true) None
                 (Some SOLICITATION) None)
              (mkRestriction 0 "DISASTER_DECLARATION") eq_refl eq_refl)
    as [result [H1 H2]].
  exists result. split; [exact H1|]. apply H2. split; reflexivity.
Defined.

(** ** The two fields of the answer of the fee-cap query *)

(** X26: in every answer of the fee-cap query the two numbers agree: either
    [maxAmount] is the claim amount times [maxPercentage] (the fallback and
    the flat caps), or [maxPercentage] is [maxAmount] divided by the claim
    amount (the sliding scale). *)
Theorem getMaximumFee_fields_agree (catalog : Catalog) (code : string) (claim : float)
  (isEmergency : option bool) (fee : MaximumFee) :
  getMaximumFee catalog code claim isEmergency = Some fee ->
  maxAmount fee = (claim * maxPercentage fee)%float
  \/ maxPercentage fee = (maxAmount fee / claim)%float.
Proof.
  unfold getMaximumFee.
  destruct (findFeeRule catalog (Js.toUpperCase code)) as [feeRule|];
    [|intros [= <-]; left; reflexivity].
  destruct (String.eqb (logicType feeRule) "MAX_PERCENTAGE").
  { destruct (asNumber (thresholdValue feeRule)); simpl; [|discriminate].
    intros [= <-]. left. reflexivity. }
  destruct (String.eqb (logicType feeRule) "DYNAMIC_CAP").
  { destruct (asCaps (thresholdValue feeRule)); simpl; [|discriminate].
    intros [= <-]. left. reflexivity. }
  destruct (String.eqb (logicType feeRule) "SLIDING_SCALE").
  { destruct (asScale (thresholdValue feeRule)); simpl; [|discriminate].
    intros [= <-]. right. reflexivity. }
  intros [= <-]. left. reflexivity.
Qed.

Lemma getMaximumFee_fields_agree_witness :
  getMaximumFee sampleCatalog "tn" 20000 None
  = Some (mkMaximumFee 0.10 2000 (Some [Lit ""]))
  /\ (2000%float = (20000 * 0.10)%float \/ 0.10%float = (2000 / 20000)%float).
Proof.
  split; [reflexivity|].
  exact (getMaximumFee_fields_agree sampleCatalog "tn" 20000 None _ eq_refl).
Defined.

(** ** The number of entries of a verdict *)

Lemma entries_count (input : ContractValidationInput) (rules : list Rule) :
  forall results,
    evaluateAll input rules = Some results ->
    List.length (violationsOf results) + List.length (warningsOf results)
    = List.length (filter (reported input) rules).
Proof.
  induction rules as [|rule rest IH]; simpl; intros results H.
  - injection H as <-. reflexivity.
  - destruct (evaluateRule rule input) as [result|] eqn:Er; simpl in H; [|discriminate].
    destruct (evaluateAll input rest) as [evs|]; simpl in H; [|discriminate].
    injection H as <-. specialize (IH evs eq_refl).
    rewrite (violationsOf_cons (rule, result) evs), (warningsOf_cons (rule, result) evs).
    rewrite !length_app.
    unfold reported at 1, fires. rewrite Er.
    unfold violationsOf at 1, warningsOf at 1, isViolation, isWarning. simpl.
    destruct (violated result), (severity rule); simpl; lia.
Qed.

(** X27: apart from severity WARNING_ONLY nothing is lost or counted twice:
    the violations and the warnings of a verdict are, together, as many as
    the active rules of the input's state or of DEFAULT_GREEN that fire with
    one of the four other severities. *)
Theorem verdict_entries_count (catalog : Catalog) (input : ContractValidationInput)
  (verdict : ComplianceValidationResult) :
  validateContract catalog input = Some verdict ->
  List.length (violations verdict) + List.length (warnings verdict)
  = List.length
      (filter (reported input)
         (findRules catalog (Js.toUpperCase (inStateCode input)))).
Proof.
  intros H. destruct (validateContract_results _ _ _ H) as [results [Hres ->]].
  simpl. now apply entries_count.
Qed.

Lemma verdict_entries_count_witness :
  validateContract [alabamaBan; warningOnlyBan; floridaWindow] (contractInput "al")
  = Some (mkResult false
            [mkViolation "r1" "AL" "LICENSE_RESTRICTION" BLOCK_ACTION "" None None
               (Some [Lit "Refer client to licensed attorney in "; Lit "AL";
                      Lit ". Public adjusting is illegal in this state."])]
            [] ["LICENSE_RESTRICTION"])
  /\ 1 + 0
     = List.length
         (filter (reported (contractInput "al"))
            (findRules [alabamaBan; warningOnlyBan; floridaWindow]
               (Js.toUpperCase (inStateCode (contractInput "al"))))).
Proof.
  split; [reflexivity|].
  exact (verdict_entries_count [alabamaBan; warningOnlyBan; floridaWindow]
           (contractInput "al") _ eq_refl).
Defined.

Lemma isPublicAdjustingAllowed_spec_witness :
  allowed (isPublicAdjustingAllowed [alabamaBan] "al") = false
  /\ exists rule, In rule [alabamaBan] /\ bansState (Js.toUpperCase "al") rule = true.
Proof.
  split; [reflexivity|].
  exact (proj1 (proj1 (isPublicAdjustingAllowed_spec [alabamaBan] "al")) eq_refl).
Defined.
